(** * The Parkhomov table pipeline: readers, canonicalizer, loaders, verifier

    A shallow embedding of the scripts under [scripts/]:
    [parse_html_tables.py], [extract_data.py], [convert_excel_to_sql.py],
    [convert_to_js.py], [rebuild_db.py], [create_db.py] and [verify_db.py].

    Conventions.  A Python [str] is a [string] holding its UTF-8 bytes, so
    that the byte-wise order of [String.leb] is the code-point order Python's
    [sorted] uses and the memcmp order of SQLite's BINARY collation.
    A script is a function from the world it runs in (the files it reads
    and writes, what it has printed) to the world it leaves and either a
    value or the exception that ended it. *)

From stdpp Require Import base option list strings gmap sorting.
From Stdlib Require Import ZArith Ascii.

Open Scope string_scope.
Open Scope Z_scope.
Open Scope nat_scope.
Open Scope list_scope.
Open Scope stdpp_scope.

(** ** Exceptions and the script monad *)

Inductive exn : Type :=
  | FileNotFoundError
  | StopIteration
  | KeyError (k : string)
  | TypeError
  | ValueError
  | OverflowError
  | OperationalError
  | ProgrammingError
  | IntegrityError.

#[global] Instance exn_eq_dec : EqDecision exn.
Proof. solve_decision. Defined.

Inductive result (A : Type) : Type :=
  | Ok (a : A)
  | Raise (e : exn).
Arguments Ok {A} a.
Arguments Raise {A} e.

#[global] Instance result_eq_dec `{EqDecision A} : EqDecision (result A).
Proof. solve_decision. Defined.

#[global] Instance result_ret : MRet result := λ A a, Ok a.
#[global] Instance result_bind : MBind result := λ A B f r,
  match r with
  | Ok a => f a
  | Raise e => Raise e
  end.

(** [M W A]: a computation over a world [W].  The world is kept when an
    exception is raised: what was written before stays written. *)
Definition M (W A : Type) : Type := W → W * result A.

#[global] Instance M_ret {W} : MRet (M W) := λ A a w, (w, Ok a).
#[global] Instance M_bind {W} : MBind (M W) := λ A B f m w,
  match m w with
  | (w', Ok a) => f a w'
  | (w', Raise e) => (w', Raise e)
  end.

Definition raise {W A} (e : exn) : M W A := λ w, (w, Raise e).
Definition gets {W A} (f : W → A) : M W A := λ w, (w, Ok (f w)).
Definition modify {W} (f : W → W) : M W unit := λ w, (f w, Ok tt).

(** [for x in xs: acc = body(acc, x)], the loop variables threaded as [acc]. *)
Fixpoint for_each {W A S} (xs : list A) (body : S → A → M W S) (acc : S)
    : M W S :=
  match xs with
  | [] => mret acc
  | x :: xs' => acc' ← body acc x; for_each xs' body acc'
  end.

(** ** Byte-wise string order *)

Definition str_le (a b : string) : Prop := String.leb a b = true.

#[global] Instance str_le_dec : RelDecision str_le.
Proof. intros a b. unfold str_le. apply _. Defined.

(** Python's [sorted] on a list of [str]. *)
Definition sorted (l : list string) : list string := merge_sort str_le l.

(** Truthiness of a list: [if xs:]. *)
Definition truthy {A} (l : list A) : bool :=
  match l with [] => false | _ => true end.

(** * Python's [float] and [int] on the strings of a CSV cell *)

Module PyFloat.

(** A binary64 value: [Fin neg m e] is [(-1)^neg * m * 2^e] with [m] odd,
    or [m = 0] and [e = 0]. *)
Inductive float : Type :=
  | Nan
  | Inf (neg : bool)
  | Fin (neg : bool) (m : Z) (e : Z).

#[global] Instance float_eq_dec : EqDecision float.
Proof. solve_decision. Defined.

(** The number of trailing zero bits of a positive number. *)
Fixpoint trailing_zeros (p : positive) : Z :=
  match p with
  | xO p' => (1 + trailing_zeros p')%Z
  | _ => 0%Z
  end.

Definition normalize (neg : bool) (m e : Z) : float :=
  match m with
  | Zpos p => let k := trailing_zeros p in Fin neg (Z.shiftr m k) (e + k)
  | _ => Fin neg 0 0
  end.

(** Round the positive rational [n / d] to the nearest binary64 value, ties
    to even: 53 bits of precision, the smallest unit [2^-1074], and [Inf]
    from [2^1024] on. *)
Definition round_nearest_even (neg : bool) (n d : Z) : float :=
  let l := (Z.log2 n - Z.log2 d)%Z in
  let scaled (e : Z) : Z * Z :=
    if (0 <=? e)%Z then (n, d * 2 ^ e)%Z else (n * 2 ^ (- e), d)%Z in
  let e0 := (l - 52)%Z in
  let e1 := if (fst (scaled e0) / snd (scaled e0) <? 2 ^ 52)%Z
            then (e0 - 1)%Z else e0 in
  let e := Z.max e1 (-1074) in
  let '(num, den) := scaled e in
  let q := (num / den)%Z in
  let r := (num mod den)%Z in
  let q' := match (2 * r ?= den)%Z with
            | Lt => q
            | Gt => (q + 1)%Z
            | Eq => if Z.even q then q else (q + 1)%Z
            end in
  if (2 ^ 1024 <=? q' * 2 ^ e)%Z && (0 <=? e)%Z then Inf neg
  else normalize neg q' e.

(** The value of the decimal [mant * 10^exp10]. *)
Definition of_decimal (neg : bool) (mant exp10 : Z) : float :=
  if (mant =? 0)%Z then Fin neg 0 0
  else if (0 <=? exp10)%Z then round_nearest_even neg (mant * 10 ^ exp10) 1
  else round_nearest_even neg mant (10 ^ (- exp10)).

(** *** The grammar of [float(str)]

    After white space is stripped: [[sign] (inf | infinity | nan | number
    [exponent])], letters in either case, where a number is
    [[digitpart] "." digitpart | digitpart ["."]] and a digit part is
    digits with single underscores between them.  Bytes above 127 are not
    digits or white space here: the cells of the pipeline are ASCII. *)

Definition is_digit (c : ascii) : bool :=
  (48 <=? nat_of_ascii c) && (nat_of_ascii c <=? 57).

Definition digit_val (c : ascii) : Z := Z.of_nat (nat_of_ascii c - 48).

Definition is_space (c : ascii) : bool :=
  let n := nat_of_ascii c in
  ((9 <=? n) && (n <=? 13)) || ((28 <=? n) && (n <=? 32)).

Definition lower (c : ascii) : ascii :=
  let n := nat_of_ascii c in
  if (65 <=? n) && (n <=? 90) then ascii_of_nat (n + 32) else c.

Fixpoint lstrip (s : list ascii) : list ascii :=
  match s with
  | c :: s' => if is_space c then lstrip s' else s
  | [] => []
  end.

Definition strip (s : list ascii) : list ascii :=
  reverse (lstrip (reverse (lstrip s))).

(** The digits of a digit part and what follows it; an underscore is taken
    only between two digits. *)
Fixpoint digits_tail (s : list ascii) : list Z * list ascii :=
  match s with
  | c :: s' =>
      if is_digit c then
        let '(ds, rest) := digits_tail s' in (digit_val c :: ds, rest)
      else if bool_decide (c = "_"%char) then
        match s' with
        | c' :: _ => if is_digit c' then digits_tail s' else ([], s)
        | [] => ([], s)
        end
      else ([], s)
  | [] => ([], [])
  end.

(** A digit part starts with a digit; an optional one may be empty. *)
Definition digitpart (s : list ascii) : option (list Z * list ascii) :=
  match s with
  | c :: _ => if is_digit c then Some (digits_tail s) else None
  | [] => None
  end.

Definition digitpart_opt (s : list ascii) : list Z * list ascii :=
  default ([], s) (digitpart s).

Definition to_int (ds : list Z) : Z :=
  foldl (λ acc d, (10 * acc + d)%Z) 0%Z ds.

Definition sign (s : list ascii) : bool * list ascii :=
  match s with
  | c :: s' =>
      if bool_decide (c = "-"%char) then (true, s')
      else if bool_decide (c = "+"%char) then (false, s')
      else (false, s)
  | [] => (false, s)
  end.

(** [number]: the digits before and after the point, and the rest. *)
Definition number (s : list ascii) : option (list Z * list Z * list ascii) :=
  let '(ip, r) := digitpart_opt s in
  match ip, r with
  | [], c :: r' =>
      if bool_decide (c = "."%char) then
        '(fp, r'') ← digitpart r'; Some ([], fp, r'')
      else None
  | [], [] => None
  | _ :: _, c :: r' =>
      if bool_decide (c = "."%char) then
        let '(fp, r'') := digitpart_opt r' in Some (ip, fp, r'')
      else Some (ip, [], r)
  | _ :: _, [] => Some (ip, [], [])
  end.

(** [[exponent]]: its value and the rest; [None] for a malformed one. *)
Definition exponent (s : list ascii) : option (Z * list ascii) :=
  match s with
  | c :: s' =>
      if bool_decide (lower c = "e"%char) then
        let '(neg, r) := sign s' in
        '(ds, r') ← digitpart r;
        Some (if neg then (- to_int ds)%Z else to_int ds, r')
      else Some (0%Z, s)
  | [] => Some (0%Z, [])
  end.

Definition parse_float (s : list ascii) : option float :=
  let '(neg, body) := sign (strip s) in
  let word := String.string_of_list_ascii (lower <$> body) in
  if bool_decide (word = "inf" ∨ word = "infinity") then Some (Inf neg)
  else if bool_decide (word = "nan") then Some Nan
  else
    '(ip, fp, r) ← number body;
    '(x, r') ← exponent r;
    match r' with
    | [] => Some (of_decimal neg (to_int (ip ++ fp)) (x - Z.of_nat (length fp)))
    | _ => None
    end.

(** [float(s)] for a [str]: [ValueError] on a string that is no float. *)
Definition py_float (s : string) : result float :=
  match parse_float (String.list_ascii_of_string s) with
  | Some x => Ok x
  | None => Raise ValueError
  end.

(** [float(v)] for a cell that may be [None]. *)
Definition py_float_opt (v : option string) : result float :=
  match v with
  | Some s => py_float s
  | None => Raise TypeError
  end.

(** [int(x)] for a float: truncation toward zero. *)
Definition py_int (x : float) : result Z :=
  match x with
  | Nan => Raise ValueError
  | Inf _ => Raise OverflowError
  | Fin neg m e =>
      let a := if (0 <=? e)%Z then (m * 2 ^ e)%Z else (m / 2 ^ (- e))%Z in
      Ok (if neg then (- a)%Z else a)
  end.

End PyFloat.

(** * The store: a SQLite file as the scripts use it *)

Module Sqlite.

(** A stored value.  A cell holds the value the script bound: the engine
    then applies the affinity of the column ([c_type]) to fix its storage
    class; the model leaves the value as bound and keeps the column type. *)
Inductive sqlval : Type :=
  | SNull
  | SInt (z : Z)
  | SReal (x : PyFloat.float)
  | SText (s : string).

#[global] Instance sqlval_eq_dec : EqDecision sqlval.
Proof. solve_decision. Defined.

Inductive coltype : Type := INTEGER | TEXT | REAL.

#[global] Instance coltype_eq_dec : EqDecision coltype.
Proof. solve_decision. Defined.

Record column : Type := Column {
  c_name : string;
  c_type : coltype;
  c_notnull : bool;
  c_default : sqlval
}.

(** A nullable column with no default. *)
Definition col (name : string) (ty : coltype) : column :=
  Column name ty false SNull.

(** A [NOT NULL] column with no default. *)
Definition col_nn (name : string) (ty : coltype) : column :=
  Column name ty true SNull.

(** A [NOT NULL DEFAULT d] column. *)
Definition col_nn_default (name : string) (ty : coltype) (d : sqlval) : column :=
  Column name ty true d.

(** A table.  In every [CREATE TABLE] of the scripts the first column is
    the [INTEGER PRIMARY KEY], the alias of the rowid: the first cell of a
    row is [SInt rowid].  [seq] is the largest rowid an [AUTOINCREMENT]
    table ever held. *)
Record table : Type := Table {
  columns : list column;
  autoincrement : bool;
  seq : Z;
  rows : list (list sqlval)
}.

Record database : Type := Database {
  tables : gmap string table;
  (** a view: the table it selects from and the columns it selects *)
  views : gmap string (string * list string);
  (** an index: the table and the column it is on *)
  indexes : gmap string (string * string)
}.

Definition empty_database : database := Database ∅ ∅ ∅.

(** What the engine decides and the scripts do not: whether a text bound to
    an [INTEGER PRIMARY KEY] is an integer (and which), and whether a text
    stored in a [REAL] column is read back as a number. *)
Class Engine : Type := {
  rowid_of_text : string → option Z;
  numeric_text : string → bool
}.

Definition int64_min : Z := (- 2 ^ 63)%Z.
Definition int64_max : Z := (2 ^ 63 - 1)%Z.

Definition rowid_of_row (r : list sqlval) : option Z :=
  match r with SInt z :: _ => Some z | _ => None end.

Definition rowids (t : table) : list Z := omap rowid_of_row (rows t).

(** The largest rowid in use; [None] for an empty table. *)
Definition max_rowid (t : table) : option Z :=
  match rowids t with
  | [] => None
  | z :: zs => Some (foldr Z.max z zs)
  end.

(** The rowid the engine gives a row inserted with a null key.  At the
    largest rowid the engine turns to random candidates (and an
    [AUTOINCREMENT] table is full): the model lets the insert fail. *)
Definition next_rowid (t : table) : result Z :=
  let top :=
    match max_rowid t with
    | Some z => if autoincrement t then Z.max z (seq t) else z
    | None => if autoincrement t then seq t else 0%Z
    end in
  if decide (top = int64_max) then Raise OperationalError
  else Ok (top + 1)%Z.

(** The rowid asked for by the first value of a row; [Ok None] asks for
    the next one; a value that is no integer is a datatype mismatch. *)
Definition requested_rowid `{Engine} (v : sqlval) : result (option Z) :=
  match v with
  | SNull => Ok None
  | SInt z => Ok (Some z)
  | SText s =>
      match rowid_of_text s with
      | Some z => Ok (Some z)
      | None => Raise IntegrityError
      end
  | SReal (PyFloat.Fin neg m e) =>
      let z := ((if neg then -1 else 1) * m * 2 ^ e)%Z in
      if decide (0 ≤ e ∧ int64_min ≤ z ≤ int64_max)%Z then Ok (Some z)
      else Raise IntegrityError
  | SReal _ => Raise IntegrityError
  end.

Inductive on_conflict : Type := Abort | Ignore.

(** A [NOT NULL] column left null; the key column is exempt, a null key
    being replaced by the next rowid. *)
Definition violates_notnull (cols : list column) (vals : list sqlval) : bool :=
  existsb (λ cv, c_notnull cv.1 && bool_decide (cv.2 = SNull))
          (drop 1 (zip cols vals)).

(** Insert one row, given as one value per column in column order.
    Returns the table and the rowid written, [None] when [OR IGNORE]
    skipped the row. *)
Definition insert_row `{Engine} (oc : on_conflict) (t : table)
    (vals : list sqlval) : result (table * option Z) :=
  match vals with
  | [] => Raise OperationalError
  | key :: cells =>
      match requested_rowid key with
      | Raise e => Raise e
      | Ok req =>
          if violates_notnull (columns t) vals then
            match oc with Abort => Raise IntegrityError | Ignore => Ok (t, None) end
          else
            match req with
            | Some z =>
                if decide (z ∈ rowids t) then
                  match oc with
                  | Abort => Raise IntegrityError
                  | Ignore => Ok (t, None)
                  end
                else
                  Ok (Table (columns t) (autoincrement t)
                        (if autoincrement t then Z.max (seq t) z else seq t)
                        (rows t ++ [SInt z :: cells]), Some z)
            | None =>
                match next_rowid t with
                | Raise e => Raise e
                | Ok z =>
                    Ok (Table (columns t) (autoincrement t)
                          (if autoincrement t then z else seq t)
                          (rows t ++ [SInt z :: cells]), Some z)
                end
            end
      end
  end.

(** [INSERT INTO name VALUES (?, ..., ?)] with [n] placeholders: the
    statement compiles only for an existing table of [n] columns. *)
Definition prepare_positional (d : database) (name : string) (n : nat)
    : result table :=
  match tables d !! name with
  | Some t =>
      if decide (n ≠ 0 ∧ n = length (columns t)) then Ok t
      else Raise OperationalError
  | None => Raise OperationalError
  end.

(** [INSERT INTO name (c1, ..., cn) VALUES (...)]: the statement compiles
    only for an existing table that has every named column; the columns
    not named take their defaults. *)
Definition prepare_named (d : database) (name : string) (names : list string)
    : result table :=
  match tables d !! name with
  | Some t =>
      if decide (names ⊆ c_name <$> columns t) then Ok t
      else Raise OperationalError
  | None => Raise OperationalError
  end.

Definition assoc (name : string) (l : list (string * sqlval)) : option sqlval :=
  (λ ip : nat * (string * sqlval), ip.2.2) <$> list_find (λ p, p.1 = name) l.

Definition named_values (t : table) (given : list (string * sqlval))
    : list sqlval :=
  (λ c, default (c_default c) (assoc (c_name c) given)) <$> columns t.

(** The position of a column and the cell of a row under it. *)
Definition column_index (t : table) (name : string) : option nat :=
  fst <$> list_find (λ c, c_name c = name) (columns t).

Definition cell (t : table) (name : string) (r : list sqlval) : sqlval :=
  default SNull (i ← column_index t name; r !! i).

(** [SELECT name FROM t]: the column, one value per row. *)
Definition select_column (t : table) (name : string) : list sqlval :=
  cell t name <$> rows t.

(** *** The order of values: [ORDER BY], and the rows of a scan *)

Definition class_rank (v : sqlval) : nat :=
  match v with SNull => 0 | SInt _ | SReal _ => 1 | SText _ => 2 end.

(** [NULL] first, then numbers, then texts in byte order.  The queries of
    the scripts order key columns (integers) and symbol columns (texts):
    reals are left in the order they come. *)
Definition sql_le (a b : sqlval) : Prop :=
  match a, b with
  | SInt x, SInt y => (x ≤ y)%Z
  | SText x, SText y => str_le x y
  | _, _ => class_rank a ≤ class_rank b
  end.

#[global] Instance sql_le_dec : RelDecision sql_le.
Proof. intros [] []; simpl; apply _. Defined.

Definition key_le {A} (key : A → sqlval) (a b : A) : Prop :=
  sql_le (key a) (key b).

#[global] Instance key_le_dec {A} (key : A → sqlval) : RelDecision (key_le key) :=
  λ a b, sql_le_dec (key a) (key b).

Definition order_by {A} (key : A → sqlval) (l : list A) : list A :=
  merge_sort (key_le key) l.

(** A table scan gives the rows by rowid. *)
Definition scan (t : table) : list (list sqlval) :=
  order_by (λ r, default SNull (head r)) (rows t).

(** [SELECT DISTINCT]: the first occurrence of each value is kept. *)
Definition distinct {A} `{EqDecision A} (l : list A) : list A :=
  remove_dups l.

(** *** The world of a script that opens the store *)

Section world.
Context {msg : Type}.

(** The CSV files by path; the store file [public/parkhomov.db], present
    or not, as last committed; the open connection, with the changes not
    yet committed, and whether a transaction is open; the lines printed. *)
Record world : Type := World {
  csvs : gmap string (list (list string));
  db : option database;
  conn : option database;
  in_txn : bool;
  stdout : list msg
}.

Definition print (m : msg) : M world unit :=
  modify (λ w, World (csvs w) (db w) (conn w) (in_txn w) (stdout w ++ [m])).

(** [sqlite3.connect(DB_PATH)]: the file is created when absent. *)
Definition connect : M world unit :=
  modify (λ w, let d := default empty_database (db w) in
               World (csvs w) (Some d) (Some d) false (stdout w)).

(** The connection's view of the store; a closed connection raises. *)
Definition current : M world database :=
  λ w, match conn w with
       | Some d => (w, Ok d)
       | None => (w, Raise ProgrammingError)
       end.

(** [CREATE ...]: outside a transaction the change is on file at once. *)
Definition exec_ddl (f : database → result database) : M world unit :=
  d ← current;
  match f d with
  | Ok d' =>
      modify (λ w, World (csvs w) (if in_txn w then db w else Some d')
                     (Some d') (in_txn w) (stdout w))
  | Raise e => raise e
  end.

(** [INSERT ...]: opens a transaction; the change waits for [commit]. *)
Definition exec_dml {A} (f : database → result (database * A)) : M world A :=
  d ← current;
  match f d with
  | Ok (d', a) =>
      modify (λ w, World (csvs w) (db w) (Some d') true (stdout w));;
      mret a
  | Raise e => raise e
  end.

(** [SELECT ...]. *)
Definition query {A} (f : database → result A) : M world A :=
  d ← current;
  match f d with
  | Ok a => mret a
  | Raise e => raise e
  end.

(** [conn.commit()]. *)
Definition commit : M world unit :=
  d ← current;
  modify (λ w, World (csvs w) (Some d) (Some d) false (stdout w)).

(** [conn.close()], and the end of the process: what was not committed
    is lost. *)
Definition close : M world unit :=
  modify (λ w, World (csvs w) (db w) None false (stdout w)).

(** [open(path)] for reading. *)
Definition open_csv (path : string) : M world (list (list string)) :=
  λ w, match csvs w !! path with
       | Some f => (w, Ok f)
       | None => (w, Raise FileNotFoundError)
       end.

(** A script run as a process: when it ends, normally or not, its
    connection is gone. *)
Definition run {A} (script : M world A) : M world A :=
  λ w, let '(w', r) := script w in ((close w').1, r).

(** *** Reading a world *)

(** All of a world but what was printed. *)
Definition store_part (w : world)
    : gmap string (list (list string)) * option database * option database * bool :=
  (csvs w, db w, conn w, in_txn w).

(** A script is tame when it leaves the CSV files alone and when what it
    does to the store, and what it returns, do not depend on what was
    printed before. *)
Definition tame {A} (m : M world A) : Prop :=
  (∀ w, csvs (m w).1 = csvs w)
  ∧ ∀ w w', store_part w = store_part w' →
      store_part (m w).1 = store_part (m w').1 ∧ (m w).2 = (m w').2.


End world.
Arguments world : clear implicits.

(** *** Statements *)

Definition create_table (if_not_exists : bool) (name : string)
    (cols : list column) (auto : bool) (d : database) : result database :=
  if decide (is_Some (tables d !! name) ∨ is_Some (views d !! name)) then
    if if_not_exists then Ok d else Raise OperationalError
  else Ok (Database (<[name := Table cols auto 0 []]> (tables d))
             (views d) (indexes d)).

Definition create_index (if_not_exists : bool) (name tbl column : string)
    (d : database) : result database :=
  if decide (is_Some (indexes d !! name)) then
    if if_not_exists then Ok d else Raise OperationalError
  else
    match tables d !! tbl with
    | Some t =>
        if decide (column ∈ c_name <$> columns t)
        then Ok (Database (tables d) (views d) (<[name := (tbl, column)]> (indexes d)))
        else Raise OperationalError
    | None => Raise OperationalError
    end.

Definition create_view (name tbl : string) (cols : list string)
    (d : database) : result database :=
  if decide (is_Some (tables d !! name) ∨ is_Some (views d !! name)) then
    Raise OperationalError
  else
    match tables d !! tbl with
    | Some t =>
        if decide (cols ⊆ c_name <$> columns t)
        then Ok (Database (tables d) (<[name := (tbl, cols)]> (views d)) (indexes d))
        else Raise OperationalError
    | None => Raise OperationalError
    end.

(** The table a [FROM name] reads: the table of that name, or the table
    under the view of that name. *)
Definition from (d : database) (name : string) : result table :=
  match tables d !! name with
  | Some t => Ok t
  | None =>
      match views d !! name with
      | Some (tbl, _) =>
          match tables d !! tbl with
          | Some t => Ok t
          | None => Raise OperationalError
          end
      | None => Raise OperationalError
      end
  end.

(** [SELECT COUNT( * ) FROM name]. *)
Definition count_rows (d : database) (name : string) : result nat :=
  match from d name with
  | Ok t => Ok (length (rows t))
  | Raise e => Raise e
  end.

End Sqlite.

(** * parse_html_tables.py *)

Module ParseHtmlTables.

(** A crawled page as BeautifulSoup hands it to the script: the [tr] rows
    of its first [table] of class [results], each row given by the stripped
    texts of its [td] cells; [None] when the page has no such table. *)
Abbreviation page := (option (list (list string))).

(** A CSV file as [csv.writer] and [csv.reader] see it: a list of records. *)
Abbreviation csv := (list (list string)).

(** The lines the script prints, each given by the values it is formatted
    from: [Parsing html_file] is the line that shows the last component of
    the path [html_file]. *)
Inductive msg : Type :=
  | NoTableFound (html_file : string)
  | NoFilesFound (pattern : string)
  | FoundFiles (n : nat)
  | Parsing (html_file : string)
  | HeadersMismatch (html_file : string) (expected got : list string)
  | AddedRows (n : nat)
  | WroteRows (n : nat) (output_file : string)
  | Processing (name : string)
  | ExportComplete.

#[global] Instance msg_eq_dec : EqDecision msg.
Proof. solve_decision. Defined.

(** The world of the script: the crawled pages by path, what [glob.glob]
    answers for a pattern (in the order the directory listing gives), the
    CSV files under [src/data] by path, and the lines printed so far. *)
Record world : Type := World {
  html : gmap string page;
  glob : string → list string;
  data : gmap string csv;
  stdout : list msg
}.

Definition print (m : msg) : M world unit :=
  modify (λ w, World (html w) (glob w) (data w) (stdout w ++ [m])).

Abbreviation headers_t := (option (list string)).
Abbreviation rows_t := (option (list (list string))).

(** [parse_html_table(html_file)].  [open] raises when the file is absent;
    a page with no table, or a table with no row, gives [(None, None)];
    rows with no [td] cell are skipped. *)
Definition parse_html_table (html_file : string) : M world (headers_t * rows_t) :=
  soup ← gets (λ w, html w !! html_file);
  match soup with
  | None => raise FileNotFoundError
  | Some None => print (NoTableFound html_file);; mret (None, None)
  | Some (Some []) => mret (None, None)
  | Some (Some (header_row :: rest)) =>
      mret (Some header_row, Some (filter (λ cells, truthy cells = true) rest))
  end.

(** The body of the loop of [parse_multi_file_table]; the loop variables
    are [(all_headers, all_rows)]. *)
Definition parse_one (acc : headers_t * list (list string)) (html_file : string)
    : M world (headers_t * list (list string)) :=
  let '(all_headers, all_rows) := acc in
  print (Parsing html_file);;
  '(headers, rows) ← parse_html_table html_file;
  match headers with
  | None => mret (all_headers, all_rows)
  | Some h =>
      all_headers' ←
        match all_headers with
        | None => mret (Some h)
        | Some ah =>
            if decide (ah = h) then mret (Some ah)
            else print (HeadersMismatch html_file ah h);; mret (Some ah)
        end;
      match rows with
      | Some (r :: rs) =>
          print (AddedRows (length (r :: rs)));;
          mret (all_headers', all_rows ++ r :: rs)
      | _ => mret (all_headers', all_rows)
      end
  end.

(** [parse_multi_file_table(pattern)]. *)
Definition parse_multi_file_table (pattern : string)
    : M world (headers_t * rows_t) :=
  files ← gets (λ w, sorted (glob w pattern));
  if truthy files then
    print (FoundFiles (length files));;
    '(all_headers, all_rows) ← for_each files parse_one (None, []);
    mret (all_headers, Some all_rows)
  else
    print (NoFilesFound pattern);; mret (None, None).

(** [write_csv(output_file, headers, rows)]. *)
Definition write_csv (output_file : string) (headers : list string)
    (rows : list (list string)) : M world unit :=
  modify (λ w, World (html w) (glob w)
                 (<[output_file := headers :: rows]> (data w)) (stdout w));;
  print (WroteRows (length rows) output_file).

(** [if headers and rows: write_csv(csv_file, headers, rows)]. *)
Definition write_if_any (csv_file : string) (hr : headers_t * rows_t)
    : M world unit :=
  match hr with
  | (Some (h :: hs), Some (r :: rs)) => write_csv csv_file (h :: hs) (r :: rs)
  | _ => mret tt
  end.

Definition tables : list (string * string * string) :=
  [ ("crawl/fusion_table.html", "src/data/fusion.csv", "Fusion");
    ("crawl/fusion_all_table.html", "src/data/fusion_all.csv", "FusionAll");
    ("crawl/fission_table.html", "src/data/fission.csv", "Fission");
    ("crawl/fission_all_table.html", "src/data/fission_all.csv", "FissionAll");
    ("crawl/nuclides_table.html", "src/data/nuclides.csv", "Nuclides");
    ("crawl/nuclides_plus_table.html", "src/data/nuclides_plus.csv", "NuclidesPlus");
    ("crawl/element_properties_table.html", "src/data/element_properties.csv",
       "ElementProperties");
    ("crawl/element_properties_plus_table.html",
       "src/data/element_properties_plus.csv", "ElementPropertiesPlus");
    ("crawl/atomic_radii_table.html", "src/data/atomic_radii.csv", "AtomicRadii");
    ("crawl/radionuclides_table.html", "src/data/radionuclides.csv", "RadioNuclides") ].

(** One turn of the loop over the single-file tables. *)
Definition process_single (t : string * string * string) : M world unit :=
  let '(html_file, csv_file, name) := t in
  print (Processing name);;
  hr ← parse_html_table html_file;
  write_if_any csv_file hr.

(** One multi-file group of [main]. *)
Definition process_multi (name pattern csv_file : string) : M world unit :=
  print (Processing name);;
  hr ← parse_multi_file_table pattern;
  write_if_any csv_file hr.

Definition main : M world unit :=
  for_each tables (λ _ t, process_single t) tt;;
  process_multi "TwoToTwo" "crawl/two_to_two_table_*.html" "src/data/twotwo.csv";;
  process_multi "TwoToTwoAll" "crawl/two_to_two_all_table_*.html"
    "src/data/twotwo_all.csv";;
  print ExportComplete.

(** *** Reading a run of the script *)

(** What one page contributes: its header row and its data rows. *)
Definition page_headers (p : page) : headers_t :=
  match p with Some (h :: _) => Some h | _ => None end.

Definition page_rows (p : page) : list (list string) :=
  match p with
  | Some (_ :: rest) => filter (λ cells, truthy cells = true) rest
  | _ => []
  end.

Definition file_headers (w : world) (f : string) : headers_t :=
  html w !! f ≫= page_headers.

Definition file_rows (w : world) (f : string) : list (list string) :=
  default [] (page_rows <$> html w !! f).

(** The header the group is compared against: that of the first file, in
    processing order, that has a table. *)
Definition group_headers (w : world) (files : list string) : headers_t :=
  head (omap (file_headers w) files).

(** The files a run announces with [Parsing], in the order it reads them. *)
Definition parsed_files (out : list msg) : list string :=
  omap (λ m, match m with Parsing f => Some f | _ => None end) out.

(** The world after printing [out] and nothing else. *)
Definition printed (w : world) (out : list msg) : world :=
  World (html w) (glob w) (data w) (stdout w ++ out).

End ParseHtmlTables.

(** * The pandas operations the canonicalizers use *)

Module Pandas.
Section frame.
Context {cell : Type}.

(** A [DataFrame]: its column labels and its rows.  A null cell ([NaN],
    [None]) is [None]. *)
Record frame : Type := Frame {
  columns : list string;
  rows : list (list (option cell))
}.

(** Every row is as wide as the labels. *)
Definition rectangular (df : frame) : Prop :=
  Forall (λ r, length r = length (columns df)) (rows df).

(** [len(df)]. *)
Definition len (df : frame) : nat := length (rows df).

(** [df.iloc[:, lo:hi]]: a slice past the last column is cut short. *)
Definition iloc_cols (lo hi : nat) (df : frame) : frame :=
  Frame (take (hi - lo) (drop lo (columns df)))
        ((λ r, take (hi - lo) (drop lo r)) <$> rows df).

(** [df.columns = names] raises unless there is one name per column. *)
Definition set_columns (names : list string) (df : frame) : result frame :=
  if decide (length names = length (columns df))
  then Ok (Frame names (rows df))
  else Raise ValueError.

(** The position of the first column labelled [name]. *)
Definition col_index (cols : list string) (name : string) : option nat :=
  fst <$> list_find (λ c, c = name) cols.

(** The cell of row [r] under the label [name]; null when there is none. *)
Definition cell_at (cols : list string) (name : string)
    (r : list (option cell)) : option cell :=
  i ← col_index cols name; mjoin (r !! i).

Definition notna (c : option cell) : bool := bool_decide (is_Some c).

(** [df.dropna(subset=subset)]: a label of [subset] that is no column is a
    [KeyError]; otherwise the rows null in none of the [subset] columns
    are kept, in order. *)
Definition dropna (subset : list string) (df : frame) : result frame :=
  match list_find (λ name, col_index (columns df) name = None) subset with
  | Some (_, name) => Raise (KeyError name)
  | None =>
      Ok (Frame (columns df)
            (filter (λ r, forallb (λ name, notna (cell_at (columns df) name r))
                            subset = true)
                    (rows df)))
  end.



End frame.
Arguments frame : clear implicits.
End Pandas.

(** * extract_data.py *)

Module ExtractData.
Import Pandas.
Section cells.
(** The values of spreadsheet cells and the text [to_csv] writes for one. *)
Context {cell : Type} (to_text : cell → string).

Inductive msg : Type :=
  | ProcessingFusFis
  | TotalRows (n : nat)
  | FusionReactions (n : nat)
  | FissionReactions (n : nat)
  | ProcessingTwoToTwo
  | TwoToTwoReactions (n : nat)
  | Summary (fusion_count fission_count twotwo_count : nat).

(** The world of the script: what [pd.read_excel(path, sheet, skiprows=k,
    nrows=n)] gives, the CSV files written, and the lines printed. *)
Record world : Type := World {
  read_excel : string → string → nat → option nat → result (frame cell);
  data : gmap string (list (list string));
  stdout : list msg
}.

Definition print (m : msg) : M world unit :=
  modify (λ w, World (read_excel w) (data w) (stdout w ++ [m])).

Definition pd_read_excel (path sheet : string) (skiprows : nat)
    (nrows : option nat) : M world (frame cell) :=
  λ w, (w, read_excel w path sheet skiprows nrows).

Definition lift {A} (r : result A) : M world A := λ w, (w, r).

(** [df.to_csv(path, index=False)]: the labels, then one record per row,
    a null cell written as the empty field. *)
Definition to_csv (path : string) (df : frame cell) : M world unit :=
  modify (λ w, World (read_excel w)
    (<[path := columns df
                :: ((λ r : list (option cell), from_option to_text "" <$> r)
                      <$> rows df)]>
       (data w))
    (stdout w)).

Definition fusion_names : list string :=
  ["E1"; "A1"; "Z1"; "E2"; "A2"; "Z2"; "E"; "A"; "Z"; "MeV"].
Definition fission_names : list string :=
  ["E"; "A"; "Z"; "E1"; "A1"; "Z1"; "E2"; "A2"; "Z2"; "MeV"].
Definition twotwo_names : list string :=
  ["E1"; "A1"; "Z1"; "E2"; "A2"; "Z2"; "E3"; "A3"; "Z3"; "E4"; "A4"; "Z4"; "MeV"].

(** The slice, rename and filter applied to one side of the sheet. *)
Definition canonicalize (lo hi : nat) (names subset : list string)
    (df : frame cell) : result (frame cell) :=
  match set_columns names (iloc_cols lo hi df) with
  | Ok df' => dropna subset df'
  | Raise e => Raise e
  end.

Definition process_fusion_fission : M world (nat * nat) :=
  print ProcessingFusFis;;
  df ← pd_read_excel "docs/FusFis.xlsx" "Fus_Fis" 6 None;
  print (TotalRows (len df));;
  fusion_df ← lift (canonicalize 0 10 fusion_names ["E1"; "MeV"] df);
  print (FusionReactions (len fusion_df));;
  fission_df ← lift (canonicalize 12 22 fission_names ["E"; "MeV"] df);
  print (FissionReactions (len fission_df));;
  to_csv "src/data/fusion.csv" fusion_df;;
  to_csv "src/data/fission.csv" fission_df;;
  mret (len fusion_df, len fission_df).

Definition process_twotwo_sample : M world nat :=
  print ProcessingTwoToTwo;;
  df ← pd_read_excel "docs/FusFis.xlsx" "2--->2" 8 (Some 10000);
  twotwo_df ← lift (canonicalize 0 13 twotwo_names ["E1"; "MeV"] df);
  print (TwoToTwoReactions (len twotwo_df));;
  to_csv "src/data/twotwo.csv" twotwo_df;;
  mret (len twotwo_df).

Definition main : M world unit :=
  '(fusion_count, fission_count) ← process_fusion_fission;
  twotwo_count ← process_twotwo_sample;
  print (Summary fusion_count fission_count twotwo_count).

End cells.
End ExtractData.

(** * convert_excel_to_sql.py and convert_to_js.py: the extractors *)

Module ConvertExcelToSql.
Import Pandas.
Section cells.
Context {cell : Type}.

(** [xl_file] stands for what [pd.read_excel(xl_file, sheet, skiprows=k)]
    gives. *)
Definition workbook : Type := string → nat → result (frame cell).

Definition extract (xl_file : workbook) (sheet : string) (skiprows : nat)
    (lo hi : nat) (names subset : list string) : result (frame cell) :=
  match xl_file sheet skiprows with
  | Ok df =>
      match set_columns names (iloc_cols lo hi df) with
      | Ok cols => dropna subset cols
      | Raise e => Raise e
      end
  | Raise e => Raise e
  end.

Definition extract_fusion_data (xl_file : workbook) : result (frame cell) :=
  extract xl_file "Fus_Fis" 6 0 10
    ["E1"; "A1"; "Z1"; "E2"; "A2"; "Z2"; "E"; "A"; "Z"; "MeV"]
    ["E1"; "E2"; "E"; "MeV"].


Definition extract_twotwo_data (xl_file : workbook) : result (frame cell) :=
  extract xl_file "2--->2" 7 0 13
    ["E1"; "A1"; "Z1"; "E2"; "A2"; "Z2"; "E3"; "A3"; "Z3"; "E4"; "A4"; "Z4"; "MeV"]
    ["E1"; "E2"; "E3"; "E4"; "MeV"].

End cells.
End ConvertExcelToSql.

(** * rebuild_db.py *)

Module RebuildDb.
Import Sqlite.

Record table_config : Type := TableConfig {
  t_name : string;
  t_csv : string;
  t_schema : list column
}.

Definition participant (suffix : string) : list column :=
  [ col ("E" +:+ suffix) TEXT; col ("A" +:+ suffix) INTEGER;
    col ("nBorF" +:+ suffix) TEXT; col ("Z" +:+ suffix) INTEGER;
    col ("aBorF" +:+ suffix) TEXT ].

(** [TABLES], in the order the dictionary is written. *)
Definition TABLES : list table_config :=
  [ TableConfig "FusionAll" "src/data/fusion_all.csv"
      ([col "id" INTEGER; col "neutrino" TEXT; col "id_sub" INTEGER]
       ++ participant "1" ++ participant "2" ++ participant ""
       ++ [col "MeV" REAL]);
    TableConfig "FissionAll" "src/data/fission_all.csv"
      ([col "id" INTEGER; col "neutrino" TEXT]
       ++ participant "" ++ participant "1" ++ participant "2"
       ++ [col "MeV" REAL]);
    TableConfig "TwoToTwoAll" "src/data/twotwo_all.csv"
      ([col "id" INTEGER; col "neutrino" TEXT; col "id_sub" INTEGER]
       ++ participant "1" ++ participant "2" ++ participant "3"
       ++ participant "4" ++ [col "MeV" REAL]);
    TableConfig "NuclidesPlus" "src/data/nuclides_plus.csv"
      [ col "id" INTEGER; col "A" INTEGER; col "Z" INTEGER; col "nBorF" TEXT;
        col "aBorF" TEXT; col "E" TEXT; col "AMU" REAL; col "BE" REAL;
        col "BEN" REAL; col "SUS" TEXT; col "LHL" TEXT; col "RDM" TEXT;
        col "DEMeV" REAL; col "pcaNCrust" REAL; col "ppmNCrust" REAL;
        col "ppmNSolar" REAL; col "SP" TEXT; col "MD" TEXT; col "EQ" TEXT;
        col "RCPT" TEXT; col "Inova_MHz" REAL; col "MagGR" REAL ];
    TableConfig "ElementPropertiesPlus" "src/data/element_properties_plus.csv"
      [ col "Z" INTEGER; col "E" TEXT; col "EName" TEXT; col "P" INTEGER;
        col "G" INTEGER; col "AWeight" REAL; col "ARadius" REAL;
        col "MolarVol" REAL; col "Melting" REAL; col "Boiling" REAL;
        col "Negativity" REAL; col "Affinity" REAL; col "Val" TEXT;
        col "MxInum" INTEGER; col "MxInize" REAL; col "STPDensity" REAL;
        col "ElectG" REAL; col "ThermG" REAL; col "SpecHeat" REAL;
        col "ppmECrust" REAL; col "ppmEStellar" REAL; col "MagType" TEXT;
        col "CuriePtK" REAL; col "MagVolSus" REAL ];
    TableConfig "AtomicRadii" "src/data/atomic_radii.csv"
      [ col "Z" INTEGER; col "E" TEXT; col "EName" TEXT;
        col "AtRadEmpirical" REAL; col "AtRadCalculated" REAL;
        col "AtRadVanDerWaals" REAL; col "AtRadCovalent" REAL ];
    TableConfig "RadioNuclides" "src/data/radionuclides.csv"
      [ col "id" INTEGER; col "A" INTEGER; col "E" TEXT; col "Z" INTEGER;
        col "RDM" TEXT; col "HL" REAL; col "Units" TEXT; col "LHL" REAL;
        col "RT" TEXT; col "DEKeV" REAL; col "RI" REAL ] ].

Inductive msg : Type :=
  | Rebuilding
  | DeletingExisting
  | NoExistingDatabase
  | CreatingNewDatabase
  | CreatingTables
  | CreatingTable (table_name : string)
  | ImportingCsvData
  | Importing (table_name : string)
  | Imported (rows_imported : nat) (csv_path : string)
  | CreatingIndexes
  | IndexesCreated
  | CreatingView
  | ViewCreated
  | Verification
  | RowCount (table_name : string) (count : nat)
  | RebuildComplete.

#[global] Instance msg_eq_dec : EqDecision msg.
Proof. solve_decision. Defined.

Section engine.
Context `{Engine}.

Notation script := (M (world msg)).

(** [delete_database()]. *)
Definition delete_database : script unit :=
  exists_ ← gets (λ w, bool_decide (is_Some (db w)));
  if exists_ : bool then
    print DeletingExisting;;
    modify (λ w, World (csvs w) None (conn w) (in_txn w) (stdout w))
  else print NoExistingDatabase.

(** [create_tables(conn)]. *)
Definition create_tables : script unit :=
  for_each TABLES (λ _ config,
    print (CreatingTable (t_name config));;
    exec_ddl (create_table false (t_name config) (t_schema config) false)) tt;;
  commit.

(** [None if cell == '' else cell], bound as a parameter. *)
Definition bind_cell (cell : string) : sqlval :=
  if decide (cell = "") then SNull else SText cell.

(** [cursor.execute(insert_sql, row)] where [insert_sql] has one
    placeholder per header: the statement must compile, the row must have
    one value per placeholder, and the engine must accept the row. *)
Definition execute_insert (table_name : string) (placeholders : nat)
    (row : list sqlval) : script unit :=
  exec_dml (λ d,
    match prepare_positional d table_name placeholders with
    | Raise e => Raise e
    | Ok t =>
        if decide (length row ≠ placeholders) then Raise ProgrammingError
        else
          match insert_row Abort t row with
          | Ok (t', _) =>
              Ok (Database (<[table_name := t']> (tables d)) (views d) (indexes d),
                  tt)
          | Raise e => Raise e
          end
    end).

(** [import_csv(conn, table_name, csv_path)]. *)
Definition import_csv (table_name csv_path : string) : script unit :=
  f ← open_csv csv_path;
  match f with
  | [] => raise StopIteration
  | headers :: reader =>
      rows_imported ← for_each reader (λ rows_imported row,
        execute_insert table_name (length headers) (bind_cell <$> row);;
        mret (S rows_imported)) 0;
      commit;;
      print (Imported rows_imported csv_path)
  end.

Definition index_list : list (string * string * string) :=
  [ ("idx_fusionall_e1", "FusionAll", "E1");
    ("idx_fusionall_e2", "FusionAll", "E2");
    ("idx_fusionall_e", "FusionAll", "E");
    ("idx_fusionall_neutrino", "FusionAll", "neutrino");
    ("idx_fissionall_e", "FissionAll", "E");
    ("idx_fissionall_e1", "FissionAll", "E1");
    ("idx_fissionall_e2", "FissionAll", "E2");
    ("idx_fissionall_neutrino", "FissionAll", "neutrino");
    ("idx_twotwoall_e1", "TwoToTwoAll", "E1");
    ("idx_twotwoall_e2", "TwoToTwoAll", "E2");
    ("idx_twotwoall_e3", "TwoToTwoAll", "E3");
    ("idx_twotwoall_e4", "TwoToTwoAll", "E4");
    ("idx_twotwoall_neutrino", "TwoToTwoAll", "neutrino");
    ("idx_nuclidesplus_e", "NuclidesPlus", "E");
    ("idx_elementpropertiesplus_e", "ElementPropertiesPlus", "E") ].

(** [create_indexes(conn)]. *)
Definition create_indexes : script unit :=
  print CreatingIndexes;;
  for_each index_list (λ _ '(name, tbl, column),
    exec_ddl (create_index false name tbl column)) tt;;
  commit;;
  print IndexesCreated.

(** [create_elements_plus_view(conn)]. *)
Definition create_elements_plus_view : script unit :=
  print CreatingView;;
  exec_ddl (create_view "ElementsPlus" "ElementPropertiesPlus" ["Z"; "E"; "EName"]);;
  commit;;
  print ViewCreated.

(** [verify_database(conn)]: the row count of every table. *)
Definition verify_database : script unit :=
  print Verification;;
  for_each TABLES (λ _ config,
    count ← query (λ d, count_rows d (t_name config));
    print (RowCount (t_name config) count)) tt.

(** One turn of the import loop of [main]. *)
Definition import_table (config : table_config) : script unit :=
  print (Importing (t_name config));;
  import_csv (t_name config) (t_csv config).

Definition main : script unit :=
  print Rebuilding;;
  delete_database;;
  print CreatingNewDatabase;;
  connect;;
  print CreatingTables;;
  create_tables;;
  print ImportingCsvData;;
  for_each TABLES (λ _ config, import_table config) tt;;
  create_indexes;;
  create_elements_plus_view;;
  verify_database;;
  close;;
  print RebuildComplete.

(** *** Reading a run of the script *)




(** The store once the tables are created: every table of [TABLES], with
    its columns and no row. *)
Definition declare (d : database) (config : table_config) : database :=
  Database (<[t_name config := Table (t_schema config) false 0 []]> (tables d))
           (views d) (indexes d).



End engine.
End RebuildDb.

(** * create_db.py *)

Module CreateDb.
Import Sqlite.

Definition flag (name : string) : column := col_nn_default name TEXT (SText "b").

(** The columns of a reaction table: the key, then [E, Z, A] for each
    participant, the energy, the emission tag, two flags for each
    participant, and [BEin]. *)
Definition reaction_columns (participants : list string) : list column :=
  col "id" INTEGER
  :: (participants ≫= λ p,
        [col_nn ("E" +:+ p) TEXT; col_nn ("Z" +:+ p) INTEGER;
         col_nn ("A" +:+ p) INTEGER])
  ++ [col_nn "MeV" REAL; col_nn_default "neutrino" TEXT (SText "none")]
  ++ (participants ≫= λ p, [flag ("nBorF" +:+ p); flag ("aBorF" +:+ p)])
  ++ [Column "BEin" REAL false (SInt 0)].

Definition ElementsPlus_columns : list column :=
  [ col "Z" INTEGER; col_nn "E" TEXT; col_nn "EName" TEXT;
    col_nn "Period" INTEGER; col_nn "Group" INTEGER; col "AWeight" REAL;
    col "ARadius" INTEGER; col "MolarVolume" REAL; col "Melting" REAL;
    col "Boiling" REAL; col "Negativity" REAL; col "Affinity" REAL;
    col "Valence" INTEGER; col "MaxIonNum" INTEGER; col "MaxIonization" REAL;
    col "STPDensity" REAL; col "ElectConduct" REAL; col "ThermConduct" REAL;
    col "SpecHeat" REAL; col "MagType" TEXT ].

Definition NuclidesPlus_columns : list column :=
  [ col "id" INTEGER; col_nn "Z" INTEGER; col_nn "A" INTEGER; col_nn "E" TEXT;
    col_nn "BE" REAL; col_nn "AMU" REAL; col_nn "nBorF" TEXT;
    col_nn "aBorF" TEXT; col "LHL" REAL ].

(** The participants of each reaction table, in the order of its columns. *)
Definition fusion_participants : list string := ["1"; "2"; ""].
Definition fission_participants : list string := [""; "1"; "2"].
Definition twotwo_participants : list string := ["1"; "2"; "3"; "4"].

Inductive msg : Type :=
  | Creating
  | CreatingTables
  | LoadingData (what : string)
  | Loaded (lastrowid : option Z) (what : string)
  | ExtractingElements
  | LoadedElements (n : nat)
  | Created (fusion_count fission_count twotwo_count : nat).

#[global] Instance msg_eq_dec : EqDecision msg.
Proof. solve_decision. Defined.

(** A row of [csv.DictReader]: the fields by name, [None] for a field the
    record is too short to have; of two fields of one name the later
    stays. *)
Definition dict_row (fieldnames row : list string) : gmap string (option string) :=
  list_to_map (reverse (zip fieldnames
    ((Some <$> row) ++ replicate (length fieldnames - length row) None))).

(** [row[key]]. *)
Definition getitem (row : gmap string (option string)) (key : string)
    : result (option string) :=
  match row !! key with
  | Some v => Ok v
  | None => Raise (KeyError key)
  end.

(** [int(float(row[key]))]. *)
Definition int_float (row : gmap string (option string)) (key : string)
    : result Z :=
  match getitem row key with
  | Raise e => Raise e
  | Ok v =>
      match PyFloat.py_float_opt v with
      | Raise e => Raise e
      | Ok x => PyFloat.py_int x
      end
  end.

(** [float(row[key])]. *)
Definition float_of (row : gmap string (option string)) (key : string)
    : result PyFloat.float :=
  match getitem row key with
  | Raise e => Raise e
  | Ok v => PyFloat.py_float_opt v
  end.

(** The arguments of one [execute], evaluated left to right: for each
    participant [row['E'], int(float(row['Z'])), int(float(row['A']))],
    then [float(row['MeV'])]. *)
Inductive arg : Type :=
  | AStr (v : option string)
  | AInt (z : Z)
  | AFloat (x : PyFloat.float).

Fixpoint participant_args (row : gmap string (option string))
    (participants : list string) : result (list (string * arg)) :=
  match participants with
  | [] => Ok []
  | p :: ps =>
      match getitem row ("E" +:+ p) with
      | Raise e => Raise e
      | Ok e =>
          match int_float row ("Z" +:+ p) with
          | Raise e => Raise e
          | Ok z =>
              match int_float row ("A" +:+ p) with
              | Raise e => Raise e
              | Ok a =>
                  match participant_args row ps with
                  | Raise e => Raise e
                  | Ok rest =>
                      Ok (("E" +:+ p, AStr e) :: ("Z" +:+ p, AInt z)
                          :: ("A" +:+ p, AInt a) :: rest)
                  end
              end
          end
      end
  end.

Definition reaction_args (row : gmap string (option string))
    (participants : list string) : result (list (string * arg)) :=
  match participant_args row participants with
  | Raise e => Raise e
  | Ok args =>
      match float_of row "MeV" with
      | Raise e => Raise e
      | Ok x => Ok (args ++ [("MeV", AFloat x)])
      end
  end.

(** Binding an argument: [None] and a NaN are stored as [NULL]; an [int]
    outside 64 bits is an [OverflowError]. *)
Definition bind_arg (a : arg) : result sqlval :=
  match a with
  | AStr None => Ok SNull
  | AStr (Some s) => Ok (SText s)
  | AInt z =>
      if decide (int64_min ≤ z ≤ int64_max)%Z then Ok (SInt z)
      else Raise OverflowError
  | AFloat PyFloat.Nan => Ok SNull
  | AFloat x => Ok (SReal x)
  end.

Fixpoint bind_args (args : list (string * arg)) : result (list (string * sqlval)) :=
  match args with
  | [] => Ok []
  | (name, a) :: rest =>
      match bind_arg a with
      | Raise e => Raise e
      | Ok v =>
          match bind_args rest with
          | Raise e => Raise e
          | Ok vs => Ok ((name, v) :: vs)
          end
      end
  end.

(** The constants the [INSERT] of a reaction table writes itself. *)
Definition reaction_literals (participants : list string)
    : list (string * sqlval) :=
  ("neutrino", SText "none")
  :: (participants ≫= λ p,
        [("nBorF" +:+ p, SText "b"); ("aBorF" +:+ p, SText "b")])
  ++ [("BEin", SInt 0)].

Section engine.
Context `{Engine}.

Notation script := (M (world msg)).

Definition create_tables : script unit :=
  exec_ddl (create_table true "ElementsPlus" ElementsPlus_columns false);;
  exec_ddl (create_table true "NuclidesPlus" NuclidesPlus_columns false);;
  exec_ddl (create_table true "FusionAll" (reaction_columns fusion_participants) true);;
  exec_ddl (create_table true "FissionAll" (reaction_columns fission_participants) true);;
  exec_ddl (create_table true "TwoToTwoAll" (reaction_columns twotwo_participants) true);;
  exec_ddl (create_index true "idx_fusion_e1" "FusionAll" "E1");;
  exec_ddl (create_index true "idx_fusion_e2" "FusionAll" "E2");;
  exec_ddl (create_index true "idx_fusion_mev" "FusionAll" "MeV");;
  exec_ddl (create_index true "idx_fission_e" "FissionAll" "E");;
  exec_ddl (create_index true "idx_fission_mev" "FissionAll" "MeV");;
  exec_ddl (create_index true "idx_twotwo_e1" "TwoToTwoAll" "E1");;
  exec_ddl (create_index true "idx_twotwo_e2" "TwoToTwoAll" "E2");;
  exec_ddl (create_index true "idx_twotwo_mev" "TwoToTwoAll" "MeV");;
  commit.

(** [cursor.execute('INSERT [OR IGNORE] INTO table (names...) VALUES ...')]
    with the values already bound; gives the new [cursor.lastrowid]. *)
Definition execute_insert (oc : on_conflict) (table_name : string)
    (given : list (string * sqlval)) (lastrowid : option Z)
    : script (option Z) :=
  exec_dml (λ d,
    match prepare_named d table_name (fst <$> given) with
    | Raise e => Raise e
    | Ok t =>
        match insert_row oc t (named_values t given) with
        | Ok (t', written) =>
            Ok (Database (<[table_name := t']> (tables d)) (views d) (indexes d),
                match written with Some z => Some z | None => lastrowid end)
        | Raise e => Raise e
        end
    end).

(** The three loaders, which differ in the file, the table and the
    participants only. *)
Definition load_reactions (csv_path table_name what : string)
    (participants : list string) : script unit :=
  f ← open_csv csv_path;
  lastrowid ←
    match f with
    | [] => mret None
    | fieldnames :: reader =>
        for_each (filter (λ r, r ≠ []) reader) (λ lastrowid record,
          let row := dict_row fieldnames record in
          match reaction_args row participants with
          | Raise e => raise e
          | Ok args =>
              _ ← query (λ d, prepare_named d table_name
                     ((fst <$> args) ++ (fst <$> reaction_literals participants)));
              match bind_args args with
              | Raise e => raise e
              | Ok given =>
                  execute_insert Abort table_name
                    (given ++ reaction_literals participants) lastrowid
              end
          end) None
    end;
  commit;;
  print (Loaded lastrowid what).

Definition load_fusion_data : script unit :=
  load_reactions "src/data/fusion.csv" "FusionAll" "fusion" fusion_participants.

Definition load_fission_data : script unit :=
  load_reactions "src/data/fission.csv" "FissionAll" "fission" fission_participants.

Definition load_twotwo_data : script unit :=
  load_reactions "src/data/twotwo.csv" "TwoToTwoAll" "two-to-two" twotwo_participants.

(** [SELECT E<p>, Z<p> FROM name], one select of the union. *)
Definition select_E_Z (d : database) (name p : string)
    : result (list (sqlval * sqlval)) :=
  match from d name with
  | Raise e => Raise e
  | Ok t =>
      if decide (["E" +:+ p; "Z" +:+ p] ⊆ c_name <$> columns t)
      then Ok ((λ r, (cell t ("E" +:+ p) r, cell t ("Z" +:+ p) r)) <$> rows t)
      else Raise OperationalError
  end.

(** The selects of the union, in the order they are written. *)
Definition union_selects : list (string * string) :=
  [ ("FusionAll", "1"); ("FusionAll", "2"); ("FusionAll", "");
    ("FissionAll", ""); ("FissionAll", "1"); ("FissionAll", "2");
    ("TwoToTwoAll", "1"); ("TwoToTwoAll", "2"); ("TwoToTwoAll", "3");
    ("TwoToTwoAll", "4") ].

Fixpoint union_all (d : database) (selects : list (string * string))
    : result (list (sqlval * sqlval)) :=
  match selects with
  | [] => Ok []
  | (name, p) :: rest =>
      match select_E_Z d name p with
      | Raise e => Raise e
      | Ok l =>
          match union_all d rest with
          | Raise e => Raise e
          | Ok l' => Ok (l ++ l')
          end
      end
  end.

(** The query of [populate_elements]: the distinct [(E, Z)] pairs of all
    participants, ordered by [Z]. *)
Definition select_elements (d : database) : result (list (sqlval * sqlval)) :=
  match union_all d union_selects with
  | Raise e => Raise e
  | Ok l => Ok (order_by snd (distinct l))
  end.

(** The loop of [populate_elements] over the rows fetched. *)
Definition insert_elements (elements : list (sqlval * sqlval)) : script unit :=
  for_each elements (λ _ '(e_symbol, z),
    _ ← execute_insert Ignore "ElementsPlus"
          [("Z", z); ("E", e_symbol); ("EName", e_symbol);
           ("Period", SInt 1); ("Group", SInt 1)] None;
    mret tt) tt.

Definition populate_elements : script unit :=
  elements ← query select_elements;
  insert_elements elements;;
  commit;;
  print (LoadedElements (length elements)).

Definition main : script unit :=
  print Creating;;
  connect;;
  print CreatingTables;;
  create_tables;;
  print (LoadingData "fusion");;
  load_fusion_data;;
  print (LoadingData "fission");;
  load_fission_data;;
  print (LoadingData "two-to-two");;
  load_twotwo_data;;
  print ExtractingElements;;
  populate_elements;;
  fusion_count ← query (λ d, count_rows d "FusionAll");
  fission_count ← query (λ d, count_rows d "FissionAll");
  twotwo_count ← query (λ d, count_rows d "TwoToTwoAll");
  print (Created fusion_count fission_count twotwo_count);;
  close.

End engine.

(** *** Reading a run of the script *)




End CreateDb.

(** * verify_db.py *)

Module VerifyDb.
Import Sqlite.

(** *** The three-valued conditions of a [WHERE] *)

(** [a OR b]. *)
Definition sql_or (a b : option bool) : option bool :=
  match a, b with
  | Some true, _ | _, Some true => Some true
  | Some false, Some false => Some false
  | _, _ => None
  end.

Definition sql_not (a : option bool) : option bool := negb <$> a.

(** [a = b]. *)
Definition sql_eq (a b : sqlval) : option bool :=
  match a, b with
  | SNull, _ | _, SNull => None
  | _, _ => Some (bool_decide (a = b))
  end.

(** [x IN (l)]: false on the empty list whatever [x]; unknown for a null
    [x], and for an [x] not found among values one of which is null. *)
Definition sql_in (x : sqlval) (l : list sqlval) : option bool :=
  match l with
  | [] => Some false
  | _ =>
      if decide (x = SNull) then None
      else if decide (x ∈ l) then Some true
      else if decide (SNull ∈ l) then None
      else Some false
  end.

(** [x LIKE '%c%'] for a character [c] that is no letter. *)
Definition sql_contains (c : ascii) (x : sqlval) : option bool :=
  match x with
  | SNull => None
  | SText s => Some (bool_decide (c ∈ String.list_ascii_of_string s))
  | _ => Some false
  end.

(** [WHERE cond]: the rows on which the condition is true. *)
Definition where_ {A} (cond : A → option bool) (l : list A) : list A :=
  filter (λ a, cond a = Some true) l.

(** A [FROM name] whose statement names the given columns. *)
Definition from_with (d : database) (name : string) (cols : list string)
    : result table :=
  t ← from d name;
  if decide (cols ⊆ c_name <$> columns t) then Ok t else Raise OperationalError.

(** The two-byte and four-byte Cyrillic strings of check 6:
    U+041D, and U+041D U+0435. *)
Definition cyrillic_H : string :=
  String "208" (String "157" EmptyString).
Definition cyrillic_He : string :=
  String "208" (String "157" (String "208" (String "181" EmptyString))).

(** *** The queries *)

(** The three selects of the union of check 1, before duplicates go. *)
Definition fusion_symbols (fusion : table) : list sqlval :=
  select_column fusion "E1" ++ select_column fusion "E2"
  ++ select_column fusion "E".

(** Check 1: the symbols of [FusionAll] not in [ElementPropertiesPlus]. *)
Definition invalid_elements (d : database) : result (list sqlval) :=
  fusion ← from_with d "FusionAll" ["E1"; "E2"; "E"];
  elements ← from_with d "ElementPropertiesPlus" ["E"];
  Ok (order_by id
        (distinct
           (where_ (λ e, sql_not (sql_in e (select_column elements "E")))
              (distinct (fusion_symbols fusion))))).

(** Check 2: the rows of [FusionAll] per [neutrino] value. *)
Definition neutrino_counts (d : database) : result (list (sqlval * nat)) :=
  fusion ← from_with d "FusionAll" ["neutrino"];
  let values := select_column fusion "neutrino" in
  Ok (order_by fst
        ((λ v, (v, length (filter (λ v', v' = v) values))) <$> distinct values)).

(** Check 3: the rows of [NuclidesPlus] with the given symbol. *)
Definition isotope_count (isotope : string) (d : database) : result nat :=
  nuclides ← from_with d "NuclidesPlus" ["E"];
  Ok (length (where_ (λ r, sql_eq (cell nuclides "E" r) (SText isotope))
                (rows nuclides))).

(** Check 5: the first five rows of [FusionAll]. *)
Definition sample_columns : list string :=
  ["E1"; "A1"; "E2"; "A2"; "E"; "A"; "MeV"; "neutrino"].

Definition sample (d : database) : result (list (list sqlval)) :=
  fusion ← from_with d "FusionAll" sample_columns;
  Ok ((λ r, (λ c, cell fusion c r) <$> sample_columns) <$> take 5 (scan fusion)).

(** [f"{row[6]:.3f}"]: a null does not format, nor does a text the engine
    left as text. *)
Definition format_MeV `{Engine} (row : list sqlval) : result unit :=
  match row !! 6 with
  | Some SNull => Raise TypeError
  | Some (SText s) => if numeric_text s then Ok tt else Raise ValueError
  | _ => Ok tt
  end.

(** Checks 6 and 7: the rows of [FusionAll] with a symbol matching. *)
Definition count_symbols (cond : sqlval → option bool) (d : database)
    : result nat :=
  fusion ← from_with d "FusionAll" ["E1"; "E2"; "E"];
  Ok (length
        (where_ (λ r, sql_or (sql_or (cond (cell fusion "E1" r))
                                     (cond (cell fusion "E2" r)))
                             (cond (cell fusion "E" r)))
                (rows fusion))).

Definition cyrillic_count : database → result nat :=
  count_symbols (λ e, sql_in e [SText cyrillic_H; SText cyrillic_He]).

Definition asterisk_count : database → result nat :=
  count_symbols (sql_contains "*").

Inductive msg : Type :=
  | Header
  | CheckingElements
  | FoundInvalid (n : nat)
  | Invalid (symbol : sqlval)
  | AllElementsValid
  | CheckingNeutrino
  | NeutrinoRows (value : sqlval) (n : nat)
  | CheckingIsotopes
  | IsotopeEntries (isotope : string) (n : nat)
  | IsotopeNotFound (isotope : string)
  | CheckingElementsPlus
  | ElementsPlusCount (n : nat)
  | CorrectNumber
  | Expected94
  | Sampling
  | SampleRow (row : list sqlval)
  | CheckingCyrillic
  | NoCyrillic
  | FoundCyrillic (n : nat)
  | CheckingAsterisks
  | NoAsterisks
  | FoundAsterisks (n : nat)
  | Complete.

#[global] Instance msg_eq_dec : EqDecision msg.
Proof. solve_decision. Defined.

Section engine.
Context `{Engine}.

Notation script := (M (world msg)).

Definition verify_database : script unit :=
  connect;;
  print Header;;
  print CheckingElements;;
  invalid ← query invalid_elements;
  (if truthy invalid then
     print (FoundInvalid (length invalid));;
     for_each invalid (λ _ e, print (Invalid e)) tt
   else print AllElementsValid);;
  print CheckingNeutrino;;
  counts ← query neutrino_counts;
  for_each counts (λ _ '(v, n), print (NeutrinoRows v n)) tt;;
  print CheckingIsotopes;;
  for_each ["H"; "D"; "T"] (λ _ isotope,
    count ← query (isotope_count isotope);
    if decide (0 < count) then print (IsotopeEntries isotope count)
    else print (IsotopeNotFound isotope)) tt;;
  print CheckingElementsPlus;;
  count ← query (λ d, count_rows d "ElementsPlus");
  print (ElementsPlusCount count);;
  (if decide (count = 94) then print CorrectNumber else print Expected94);;
  print Sampling;;
  rows ← query sample;
  for_each rows (λ _ row,
    match format_MeV row with
    | Ok _ => print (SampleRow row)
    | Raise e => raise e
    end) tt;;
  print CheckingCyrillic;;
  cyrillic ← query cyrillic_count;
  (if decide (cyrillic = 0) then print NoCyrillic
   else print (FoundCyrillic cyrillic));;
  print CheckingAsterisks;;
  asterisks ← query asterisk_count;
  (if decide (asterisks = 0) then print NoAsterisks
   else print (FoundAsterisks asterisks));;
  close;;
  print Complete.

End engine.
End VerifyDb.

(** * Inputs for the examples *)

Module Examples.
Import Sqlite.

(** An engine for the examples: it takes an unsigned decimal numeral as a
    rowid and, as numbers, the texts [float] accepts. *)
Definition sample_engine : Engine := {|
  rowid_of_text s :=
    let cs := String.list_ascii_of_string s in
    if forallb PyFloat.is_digit cs && negb (bool_decide (cs = []))
    then Some (PyFloat.to_int (PyFloat.digit_val <$> cs)) else None;
  numeric_text s :=
    bool_decide (is_Some (PyFloat.parse_float (String.list_ascii_of_string s)))
|}.


(** A sheet with two rows on the Fusion side, the first with no symbol of
    its second input ([E2]), the second with no mass number of its first
    input ([A1]), and empty on the Fission side. *)
Definition sheet_null_keys : Pandas.frame string :=
  Pandas.Frame (replicate 22 "")
    [ [Some "H"; Some "1"; Some "1"; None; Some "2"; Some "1";
       Some "H"; Some "3"; Some "1"; Some "5.494"] ++ replicate 12 None;
      [Some "H"; None; Some "1"; Some "H"; Some "2"; Some "1";
       Some "H"; Some "3"; Some "1"; Some "5.494"] ++ replicate 12 None ].

(** A two-to-two sheet with one row, which has no symbol of its second
    input ([E2]). *)
Definition sheet_twotwo_null_E2 : Pandas.frame string :=
  Pandas.Frame (replicate 13 "")
    [ [Some "H"; Some "2"; Some "1"; None; Some "2"; Some "1";
       Some "H"; Some "3"; Some "1"; Some "H"; Some "1"; Some "1";
       Some "4.033"] ].

(** A workbook with these two sheets. *)
Definition sheets_null_keys (sheet : string) : Pandas.frame string :=
  if decide (sheet = "Fus_Fis") then sheet_null_keys else sheet_twotwo_null_E2.

(** The CSV files of [rebuild_db.py], each with its header alone. *)
Definition empty_csvs : gmap string (list (list string)) :=
  list_to_map ((λ c, (RebuildDb.t_csv c, [c_name <$> RebuildDb.t_schema c]))
                 <$> RebuildDb.TABLES).

Definition header (table_name : string) : list string :=
  default []
    ((λ ic : nat * RebuildDb.table_config, c_name <$> RebuildDb.t_schema ic.2)
       <$> list_find (λ c, RebuildDb.t_name c = table_name) RebuildDb.TABLES).

(** One fusion [H + D -> He], both inputs known elements; one fission whose
    products carry a symbol with a footnote asterisk and a symbol that is
    no element; hydrogen and helium as the only elements. *)
Definition fusion_all_csv : list (list string) :=
  [ header "FusionAll";
    ["1"; "none"; "1"; "H"; "1"; "b"; "1"; "b"; "D"; "2"; "b"; "1"; "b";
     "He"; "3"; "b"; "2"; "b"; "5.494"] ].

Definition fission_all_csv : list (list string) :=
  [ header "FissionAll";
    ["1"; "none"; "He"; "4"; "b"; "2"; "b"; "Xx"; "2"; "b"; "1"; "b";
     "D*"; "2"; "b"; "1"; "b"; "-23.8"] ].

Definition element_csv : list (list string) :=
  [ header "ElementPropertiesPlus";
    ["1"; "H"; "Hydrogen"] ++ replicate 21 "";
    ["2"; "He"; "Helium"] ++ replicate 21 "";
    ["3"; "D"; "Deuterium"] ++ replicate 21 "" ].

Definition fission_gap_csvs : gmap string (list (list string)) :=
  <["src/data/fusion_all.csv" := fusion_all_csv]>
  (<["src/data/fission_all.csv" := fission_all_csv]>
  (<["src/data/element_properties_plus.csv" := element_csv]> empty_csvs)).

(** A fusion whose first input is written with the Cyrillic letter
    U+0421 (bytes 208, 161), a look-alike of the carbon symbol. *)
Definition cyrillic_C : string := String "208" (String "161" EmptyString).

Definition fusion_cyrillic_csv : list (list string) :=
  [ header "FusionAll";
    ["1"; "none"; "1"; cyrillic_C; "12"; "b"; "6"; "b"; "H"; "1"; "b"; "1"; "b";
     "N"; "13"; "b"; "7"; "b"; "1.943"] ].

Definition cyrillic_csvs : gmap string (list (list string)) :=
  <["src/data/fusion_all.csv" := fusion_cyrillic_csv]> fission_gap_csvs.







(** A world with the given CSV files and store, nothing open or printed. *)
Definition start {msg} (files : gmap string (list (list string)))
    (store : option database) : world msg :=
  World files store None false [].

(** The store a rebuild leaves from the given CSV files. *)
Definition rebuilt (files : gmap string (list (list string))) : option database :=
  db (run (RebuildDb.main (H := sample_engine)) (start files None)).1.






End Examples.

(** * Properties *)

(** ** The script monad *)

Lemma bind_ok {W A B} (m : M W A) (f : A → M W B) w w' a :
  m w = (w', Ok a) → (m ≫= f) w = f a w'.
Proof. intros H. unfold mbind, M_bind. by rewrite H. Qed.

Lemma bind_raise {W A B} (m : M W A) (f : A → M W B) w w' e :
  m w = (w', Raise e) → (m ≫= f) w = (w', Raise e).
Proof. intros H. unfold mbind, M_bind. by rewrite H. Qed.




#[global] Instance str_le_total : Total str_le.
Proof. intros a b. apply String.leb_total. Qed.

#[global] Instance str_le_antisym : AntiSymm (=) str_le.
Proof. intros a b. apply String.leb_antisym. Qed.


(** ** parse_html_tables.py: merging the fragments of a multi-file table *)

Module ParseHtmlTablesProps.
Import ParseHtmlTables.

Lemma printed_nil w : printed w [] = w.
Proof. destruct w. unfold printed. simpl. by rewrite app_nil_r. Qed.

Lemma printed_app w o1 o2 : printed (printed w o1) o2 = printed w (o1 ++ o2).
Proof. unfold printed. simpl. by rewrite app_assoc. Qed.

Lemma print_spec m w : print m w = (printed w [m], Ok tt).
Proof. done. Qed.

Ltac run_script :=
  unfold print, modify, gets, raise, mbind, M_bind, mret, M_ret, printed;
  cbn.

Ltac in_out :=
  let f := fresh "f" in let e := fresh "e" in let g := fresh "g" in
  intros f e g; rewrite ?elem_of_cons, ?elem_of_nil; naive_solver.

Lemma parse_html_table_missing w f :
  html w !! f = None → parse_html_table f w = (w, Raise FileNotFoundError).
Proof. intros Hf. unfold parse_html_table. run_script. by rewrite Hf. Qed.

(** One turn of the loop: the rows of the page are appended whatever its
    header; a warning is printed exactly when a header was already fixed and
    this page's header differs from it. *)
Lemma parse_one_spec w ah rows f p :
  html w !! f = Some p →
  ∃ out, parse_one (ah, rows) f w
         = (printed w out,
            Ok (match ah with Some _ => ah | None => page_headers p end,
                rows ++ page_rows p))
    ∧ parsed_files out = [f]
    ∧ ∀ f' e g, HeadersMismatch f' e g ∈ out ↔
        f' = f ∧ ah = Some e ∧ page_headers p = Some g ∧ g ≠ e.
Proof.
  intros Hf. unfold parse_one, parse_html_table. run_script. rewrite Hf.
  destruct p as [[|h rest]|], ah as [ah|]; cbn;
    try destruct (decide (ah = h)) as [->|Hne]; cbn;
    try destruct (filter _ rest) as [|r rs] eqn:Hrs; cbn;
    rewrite <- ?app_assoc, ?app_nil_r; cbn;
    (eexists; split; [reflexivity|split; [reflexivity|in_out]]).
Qed.

Lemma group_headers_cons w f files :
  group_headers w (f :: files)
  = match file_headers w f with
    | Some h => Some h
    | None => group_headers w files
    end.
Proof. unfold group_headers. simpl. by destruct (file_headers w f). Qed.

(** The loop of [parse_multi_file_table] over files that all exist. *)
Lemma for_each_parse_one w files ah rows :
  (∀ f, f ∈ files → is_Some (html w !! f)) →
  ∃ out,
    for_each files parse_one (ah, rows) w
    = (printed w out,
       Ok (from_option Some (group_headers w files) ah,
           rows ++ concat (file_rows w <$> files)))
    ∧ parsed_files out = files
    ∧ ∀ f e g, HeadersMismatch f e g ∈ out ↔
        f ∈ files ∧ from_option Some (group_headers w files) ah = Some e
        ∧ file_headers w f = Some g ∧ g ≠ e.
Proof.
  revert w ah rows. induction files as [|f files IH]; intros w ah rows Hex.
  - exists []. simpl. rewrite printed_nil, app_nil_r. split.
    + by destruct ah.
    + split; [done|].
      intros f e g. split; [by intros ?%elem_of_nil|by intros [?%elem_of_nil _]].
  - destruct (Hex f) as [p Hp]; [by left|].
    destruct (parse_one_spec w ah rows f p Hp) as (o1 & H1 & Hp1 & Hw1).
    destruct (IH (printed w o1)
                 (match ah with Some _ => ah | None => page_headers p end)
                 (rows ++ page_rows p)) as (o2 & H2 & Hp2 & Hw2).
    { intros f' Hf'. apply Hex. by right. }
    exists (o1 ++ o2). simpl for_each.
    rewrite (bind_ok _ _ _ _ _ H1), H2, printed_app. clear H1 H2.
    change (file_rows (printed w o1)) with (file_rows w) in *.
    change (file_headers (printed w o1)) with (file_headers w) in *.
    assert (file_headers w f = page_headers p) as Hfh.
    { unfold file_headers. by rewrite Hp. }
    assert (file_rows w f = page_rows p) as Hfr.
    { unfold file_rows. by rewrite Hp. }
    assert (from_option Some (group_headers w (f :: files)) ah
            = from_option Some (group_headers w files)
                (match ah with Some _ => ah | None => page_headers p end)) as Hah.
    { rewrite group_headers_cons, Hfh. by destruct ah, (page_headers p). }
    rewrite Hah. split.
    + rewrite fmap_cons, concat_cons, Hfr. by rewrite <- app_assoc.
    + split; [unfold parsed_files in *; by rewrite omap_app, Hp1, Hp2|].
      intros f' e g. rewrite elem_of_app, Hw1, Hw2, elem_of_cons. split.
      * intros [(-> & -> & Hg' & Hne)|(Hin & Hah' & Hg' & Hne)].
        -- split; [by left|]. split; [done|]. by rewrite Hfh.
        -- split; [by right|]. done.
      * intros ([->|Hin] & Hah' & Hg' & Hne); [|right; done].
        left. split; [done|]. rewrite Hfh in Hg'. rewrite Hg' in Hah'.
        destruct ah as [a|]; simpl in Hah'; by simplify_eq.
Qed.

Lemma sorted_nil_iff (l : list string) : sorted l = [] ↔ l = [].
Proof.
  split; [|by intros ->].
  intros H. apply Permutation_nil_r. rewrite <- H. unfold sorted.
  symmetry. apply merge_sort_Permutation.
Qed.

(** C5.  In a multi-file group whose files can all be read, a file whose
    header differs from the group's header (that of the first file with a
    table) is reported with a [HeadersMismatch] warning and with nothing
    else: the call returns normally, the rows of every file, mismatching
    or not, are in the result unchanged and in file order, and the header
    returned is the group's. *)
Theorem parse_multi_file_table_mismatch_is_warning w pattern :
  glob w pattern ≠ [] →
  (∀ f, f ∈ glob w pattern → is_Some (html w !! f)) →
  ∃ out,
    parse_multi_file_table pattern w
    = (printed w out,
       Ok (group_headers w (sorted (glob w pattern)),
           Some (concat (file_rows w <$> sorted (glob w pattern)))))
    ∧ parsed_files out = sorted (glob w pattern)
    ∧ ∀ f e g, HeadersMismatch f e g ∈ out ↔
        f ∈ sorted (glob w pattern)
        ∧ group_headers w (sorted (glob w pattern)) = Some e
        ∧ file_headers w f = Some g ∧ g ≠ e.
Proof.
  intros Hne Hex. unfold parse_multi_file_table.
  unfold mbind at 1, M_bind at 1, gets at 1.
  assert (∀ f, f ∈ sorted (glob w pattern) → is_Some (html w !! f)) as Hex'.
  { intros f Hf. apply Hex. unfold sorted in Hf.
    by rewrite merge_sort_Permutation in Hf. }
  destruct (sorted (glob w pattern)) as [|f0 fs] eqn:Hfiles.
  { apply (proj1 (sorted_nil_iff _)) in Hfiles. contradiction. }
  cbn [truthy]. rewrite (bind_ok _ _ _ _ _ (print_spec _ _)).
  destruct (for_each_parse_one (printed w [FoundFiles (length (f0 :: fs))])
              (f0 :: fs) None [] Hex') as (o & Hrun & Hpf & Hw).
  simpl from_option in *. rewrite (bind_ok _ _ _ _ _ Hrun), printed_app.
  eexists. split; [reflexivity|]. split; [exact Hpf|].
  intros f e g. rewrite elem_of_app, list_elem_of_singleton, Hw.
  change (group_headers (printed w [FoundFiles (S (length fs))]))
    with (group_headers w).
  change (file_headers (printed w [FoundFiles (length (f0 :: fs))]))
    with (file_headers w).
  split; [intros [[=]|H]; exact H|by right].
Qed.

Lemma parse_multi_file_table_mismatch_is_warning_witness :
  let w := World {[ "a_1.html" := Some [["E"; "A"]; ["H"; "1"]];
                    "a_2.html" := Some [["A"; "E"]; ["2"; "D"]] ]}
                 (λ _, ["a_2.html"; "a_1.html"]) ∅ [] in
  glob w "a_*.html" ≠ []
  ∧ ∃ out,
      parse_multi_file_table "a_*.html" w
      = (printed w out,
         Ok (Some ["E"; "A"], Some [["H"; "1"]; ["2"; "D"]]))
      ∧ parsed_files out = ["a_1.html"; "a_2.html"]
      ∧ ∀ f e g, HeadersMismatch f e g ∈ out ↔
          f ∈ ["a_1.html"; "a_2.html"] ∧ Some ["E"; "A"] = Some e
          ∧ file_headers w f = Some g ∧ g ≠ e.
Proof.
  intros w. split; [done|].
  apply (parse_multi_file_table_mismatch_is_warning w "a_*.html").
  - done.
  - intros f Hf. cbn in Hf.
    apply elem_of_cons in Hf as [->|Hf]; [by eexists|].
    apply list_elem_of_singleton in Hf as ->. by eexists.
Defined.

Lemma sorted_Sorted (l : list string) : Sorted str_le (sorted l).
Proof. apply Sorted_merge_sort, _. Qed.

Lemma sorted_Permutation (l : list string) : sorted l ≡ₚ l.
Proof. apply merge_sort_Permutation. Qed.

(** A group with files, all of which can be read, is read in sorted
    order and gives a result with rows. *)
Lemma parse_multi_file_table_reads_sorted w pattern :
  glob w pattern ≠ [] →
  (∀ f, f ∈ glob w pattern → is_Some (html w !! f)) →
  ∃ out h r,
    parse_multi_file_table pattern w = (printed w out, Ok (h, Some r))
    ∧ parsed_files out = sorted (glob w pattern).
Proof.
  intros Hne Hex. unfold parse_multi_file_table.
  unfold mbind at 1, M_bind at 1, gets at 1.
  assert (∀ f, f ∈ sorted (glob w pattern) → is_Some (html w !! f)) as Hex'.
  { intros f Hf. apply Hex. unfold sorted in Hf.
    by rewrite merge_sort_Permutation in Hf. }
  destruct (sorted (glob w pattern)) as [|f0 fs] eqn:Hfiles.
  { apply (proj1 (sorted_nil_iff _)) in Hfiles. contradiction. }
  cbn [truthy]. rewrite (bind_ok _ _ _ _ _ (print_spec _ _)).
  destruct (for_each_parse_one (printed w [FoundFiles (length (f0 :: fs))])
              (f0 :: fs) None [] Hex') as (o & Hrun & Hpf & _).
  simpl from_option in *. rewrite (bind_ok _ _ _ _ _ Hrun), printed_app.
  eexists _, _, _. split; [reflexivity|exact Hpf].
Qed.

Lemma parse_multi_file_table_no_files w pattern :
  glob w pattern = [] →
  parse_multi_file_table pattern w
  = (printed w [NoFilesFound pattern], Ok (None, None)).
Proof. intros Hg. unfold parse_multi_file_table. run_script. by rewrite Hg. Qed.

(** C7.  A glob source is read in byte-wise sorted order, the sorted list
    being a rearrangement of what the pattern matched.  When nothing
    matches, the reader returns the empty result [(None, None)] normally and
    its caller in [main] goes on without writing a file and without raising;
    a single-file source whose file is absent instead ends its caller with
    [FileNotFoundError]. *)
Theorem glob_source_empty_is_not_missing w pattern name csv_file t :
  Sorted str_le (sorted (glob w pattern))
  ∧ sorted (glob w pattern) ≡ₚ glob w pattern
  ∧ (glob w pattern ≠ [] →
     (∀ f, f ∈ glob w pattern → is_Some (html w !! f)) →
     ∃ out h r, parse_multi_file_table pattern w = (printed w out, Ok (h, Some r))
       ∧ parsed_files out = sorted (glob w pattern))
  ∧ (glob w pattern = [] →
     parse_multi_file_table pattern w
     = (printed w [NoFilesFound pattern], Ok (None, None))
     ∧ process_multi name pattern csv_file w
       = (printed w [Processing name; NoFilesFound pattern], Ok tt))
  ∧ (html w !! t.1.1 = None →
     parse_html_table t.1.1 w = (w, Raise FileNotFoundError)
     ∧ process_single t w
       = (printed w [Processing t.2], Raise FileNotFoundError)).
Proof.
  split; [apply sorted_Sorted|]. split; [apply sorted_Permutation|].
  split; [|split].
  - intros Hne Hex. by apply parse_multi_file_table_reads_sorted.
  - intros Hg. split; [by apply parse_multi_file_table_no_files|].
    unfold process_multi.
    rewrite (bind_ok _ _ _ _ _ (print_spec _ _)).
    rewrite (bind_ok _ _ _ _ _
               (parse_multi_file_table_no_files (printed w [Processing name])
                  pattern Hg)).
    by rewrite printed_app.
  - intros Hf. split; [by apply parse_html_table_missing|].
    destruct t as [[html_file csv'] name']. unfold process_single.
    rewrite (bind_ok _ _ _ _ _ (print_spec _ _)).
    by rewrite (bind_raise _ _ _ _ _
                  (parse_html_table_missing (printed w [Processing name'])
                     html_file Hf)).
Qed.

Lemma glob_source_empty_is_not_missing_witness :
  let w := World {[ "crawl/two_to_two_table_2.html" := Some [["E1"]; ["H"]];
                    "crawl/two_to_two_table_1.html" := Some [["E1"]; ["D"]] ]}
             (λ p, if decide (p = "crawl/two_to_two_table_*.html")
                   then ["crawl/two_to_two_table_2.html";
                         "crawl/two_to_two_table_1.html"]
                   else []) ∅ [] in
  (∃ out h r,
     parse_multi_file_table "crawl/two_to_two_table_*.html" w
     = (printed w out, Ok (h, Some r))
     ∧ parsed_files out
       = ["crawl/two_to_two_table_1.html"; "crawl/two_to_two_table_2.html"])
  ∧ process_multi "TwoToTwoAll" "crawl/two_to_two_all_table_*.html"
      "src/data/twotwo_all.csv" w
    = (printed w [Processing "TwoToTwoAll";
                  NoFilesFound "crawl/two_to_two_all_table_*.html"], Ok tt)
  ∧ process_single
      ("crawl/fusion_table.html", "src/data/fusion.csv", "Fusion") w
    = (printed w [Processing "Fusion"], Raise FileNotFoundError).
Proof.
  intros w. split; [|split].
  - apply (glob_source_empty_is_not_missing w "crawl/two_to_two_table_*.html"
             "TwoToTwo" "src/data/twotwo.csv" ("", "", "")); [done|].
    intros f Hf. cbn in Hf.
    apply elem_of_cons in Hf as [->|Hf]; [by eexists|].
    apply list_elem_of_singleton in Hf as ->. by eexists.
  - by apply (glob_source_empty_is_not_missing w
                "crawl/two_to_two_all_table_*.html" "TwoToTwoAll"
                "src/data/twotwo_all.csv" ("", "", "")).
  - by apply (glob_source_empty_is_not_missing w "" "" ""
                ("crawl/fusion_table.html", "src/data/fusion.csv", "Fusion")).
Defined.

End ParseHtmlTablesProps.

(** ** extract_data.py and convert_excel_to_sql.py: which rows are kept *)

Module CanonicalizerProps.
Import Pandas.

Section cells.
Context {cell : Type}.
Implicit Types (df : frame cell) (r : list (option cell)).







End cells.

Import Examples.


(** C4 on the code.  [extract_data.py] on a workbook whose Fusion rows lack
    the symbol [E2] (first row) and the mass number [A1] (second row), and
    whose two-to-two row lacks the symbol [E2]: it keeps all three rows and
    writes them with an empty field for the null cell.  The extractors of
    [convert_excel_to_sql.py] drop the rows without [E2] on the same
    workbook, and keep the row without [A1].  [create_db.py], run on the
    files [extract_data.py] wrote, raises [ValueError] at the empty [A1]. *)
Theorem extract_data_keeps_rows_with_null_keys :
  let w := ExtractData.World (λ _ sheet _ _, Ok (sheets_null_keys sheet)) ∅ [] in
  let out := ExtractData.main id w in
  let xl_file : ConvertExcelToSql.workbook := λ sheet _, Ok (sheets_null_keys sheet) in
  out.2 = Ok tt
  ∧ ExtractData.data out.1 !! "src/data/fusion.csv"
    = Some [ExtractData.fusion_names;
            ["H"; "1"; "1"; ""; "2"; "1"; "H"; "3"; "1"; "5.494"];
            ["H"; ""; "1"; "H"; "2"; "1"; "H"; "3"; "1"; "5.494"]]
  ∧ ExtractData.data out.1 !! "src/data/twotwo.csv"
    = Some [ExtractData.twotwo_names;
            ["H"; "2"; "1"; ""; "2"; "1"; "H"; "3"; "1"; "H"; "1"; "1"; "4.033"]]
  ∧ ConvertExcelToSql.extract_fusion_data xl_file
    = Ok (Frame ExtractData.fusion_names
            [[Some "H"; None; Some "1"; Some "H"; Some "2"; Some "1";
              Some "H"; Some "3"; Some "1"; Some "5.494"]])
  ∧ ConvertExcelToSql.extract_twotwo_data xl_file
    = Ok (Frame ExtractData.twotwo_names [])
  ∧ (Sqlite.run (CreateDb.main (H := sample_engine))
       (start (ExtractData.data out.1) None)).2
    = Raise ValueError.
Proof. by vm_compute. Qed.

End CanonicalizerProps.

(** ** The store: scripts do not depend on what was printed *)

Module SqliteProps.
Import Sqlite.

Section world.
Context {msg : Type}.
Implicit Types w : world msg.

Lemma store_part_eq w w' :
  store_part w = store_part w' ↔
  csvs w = csvs w' ∧ db w = db w' ∧ conn w = conn w' ∧ in_txn w = in_txn w'.
Proof.
  unfold store_part. split.
  - by intros [= ? ? ? ?].
  - intros (H1 & H2 & H3 & H4). by rewrite H1, H2, H3, H4.
Qed.

Ltac tame_prim :=
  split;
  [ intros w; try done
  | intros w w' [Hc [Hd [Hn Ht]]]%store_part_eq; rewrite store_part_eq;
    simpl; rewrite ?Hc, ?Hd, ?Hn, ?Ht ].

Lemma tame_ret {A} (a : A) : tame (msg := msg) (mret a).
Proof. tame_prim. done. Qed.

Lemma tame_raise {A} e : tame (msg := msg) (raise (A := A) e).
Proof. tame_prim. done. Qed.

Lemma tame_print m : tame (print (msg := msg) m).
Proof. tame_prim. done. Qed.

Lemma tame_connect : tame (connect (msg := msg)).
Proof. tame_prim. done. Qed.

Lemma tame_close : tame (close (msg := msg)).
Proof. tame_prim. done. Qed.

Lemma tame_current : tame (current (msg := msg)).
Proof.
  split; [intros w; unfold current; by destruct (conn w)|].
  intros w w' [Hc [Hd [Hn Ht]]]%store_part_eq. unfold current.
  rewrite Hn. destruct (conn w') eqn:E; simpl; rewrite store_part_eq;
    repeat split; congruence.
Qed.

Lemma tame_open_csv path : tame (open_csv (msg := msg) path).
Proof.
  split; [intros w; unfold open_csv; by destruct (csvs w !! path)|].
  intros w w' [Hc [Hd [Hn Ht]]]%store_part_eq. unfold open_csv.
  rewrite Hc. destruct (csvs w' !! path) eqn:E; simpl; rewrite store_part_eq;
    repeat split; congruence.
Qed.

Lemma tame_bind {A B} (m : M (world msg) A) (f : A → M (world msg) B) :
  tame m → (∀ a, tame (f a)) → tame (m ≫= f).
Proof.
  intros [Hm1 Hm2] Hf. split.
  - intros w. unfold mbind, M_bind. specialize (Hm1 w).
    destruct (m w) as [w1 [a|e]]; simpl in *; [|done].
    destruct (Hf a) as [Hf1 _]. by rewrite Hf1.
  - intros w w' Hww. unfold mbind, M_bind. specialize (Hm2 w w' Hww).
    destruct (m w) as [w1 r], (m w') as [w1' r'].
    destruct Hm2 as [H1 H2]. simpl in *. subst r'.
    destruct r as [a|e]; [|done].
    destruct (Hf a) as [_ Hf2]. by apply Hf2.
Qed.

Lemma tame_for_each {A S} (xs : list A) (body : S → A → M (world msg) S) acc :
  (∀ acc x, tame (body acc x)) → tame (for_each xs body acc).
Proof.
  intros Hbody. revert acc. induction xs as [|x xs IH]; intros acc; simpl.
  - apply tame_ret.
  - apply tame_bind; [apply Hbody|apply IH].
Qed.

Lemma tame_exec_ddl f : tame (exec_ddl (msg := msg) f).
Proof.
  unfold exec_ddl. apply tame_bind; [apply tame_current|].
  intros d. destruct (f d) as [d'|e]; [|apply tame_raise].
  tame_prim. done.
Qed.

Lemma tame_exec_dml {A} (f : database → result (database * A)) :
  tame (exec_dml (msg := msg) f).
Proof.
  unfold exec_dml. apply tame_bind; [apply tame_current|].
  intros d. destruct (f d) as [[d' a]|e]; [|apply tame_raise].
  apply tame_bind; [|intros; apply tame_ret]. tame_prim. done.
Qed.

Lemma tame_query {A} (f : database → result A) : tame (query (msg := msg) f).
Proof.
  unfold query. apply tame_bind; [apply tame_current|].
  intros d. destruct (f d); [apply tame_ret|apply tame_raise].
Qed.

Lemma tame_commit : tame (commit (msg := msg)).
Proof.
  unfold commit. apply tame_bind; [apply tame_current|].
  intros d. tame_prim. done.
Qed.

(** *** What a statement that returned has done *)





End world.

#[export] Hint Resolve tame_ret tame_raise tame_print tame_connect tame_close
  tame_current tame_open_csv tame_exec_ddl tame_exec_dml tame_query
  tame_commit : tame.

(** Break a script into its statements. *)
Ltac tame_script :=
  repeat first
    [ progress eauto with tame
    | apply tame_for_each; intros ? ?
    | apply tame_bind; [|intros ?]
    | match goal with
      | |- tame (match ?x with _ => _ end) => destruct x
      | |- tame (if ?x then _ else _) => destruct x
      | |- tame (let '(_, _) := ?x in _) => destruct x
      end ].

End SqliteProps.

(** ** The store: inserting a row *)

Module InsertProps.
Import Sqlite.






Section engine.
Context `{Engine}.





End engine.
End InsertProps.

(** ** rebuild_db.py *)

Module RebuildDbProps.
Import Sqlite RebuildDb SqliteProps InsertProps Examples.

Section engine.
Context `{Engine}.
Implicit Types w : world msg.

Lemma tame_import_csv name path : tame (import_csv name path).
Proof. unfold import_csv, execute_insert. tame_script. Qed.

#[local] Hint Resolve tame_import_csv : tame.


Lemma tame_create_tables : tame create_tables.
Proof. unfold create_tables. tame_script. Qed.


(** *** One insert, and the import loop *)






(** *** Creating the tables *)



Lemma declare_views d configs : views (foldl declare d configs) = views d.
Proof. revert d. induction configs as [|c configs IH]; intros d; [done|]. simpl. by rewrite IH. Qed.













End engine.


End RebuildDbProps.

(** ** verify_db.py: what the checks look at *)

Module VerifyDbProps.
Import Sqlite VerifyDb Examples.






(** C1 on the code.  The store rebuilt from [fission_gap_csvs] has in
    [FissionAll] the participant symbols [Xx] and [D*], neither of them a
    symbol of [ElementPropertiesPlus]; the verifier, which reads the symbols
    of [FusionAll] alone, prints that all elements are valid. *)
Theorem check1_reads_FusionAll_only :
  let store := rebuilt fission_gap_csvs in
  let w := run (verify_database (H := sample_engine)) (start ∅ store) in
  (store ≫= λ d, tables d !! "FissionAll" ≫= λ t,
     Some (select_column t "E", select_column t "E1", select_column t "E2"))
  = Some ([SText "He"], [SText "Xx"], [SText "D*"])
  ∧ (store ≫= λ d, tables d !! "ElementPropertiesPlus" ≫= λ t,
       Some (select_column t "E"))
    = Some [SText "H"; SText "He"; SText "D"]
  ∧ w.2 = Ok tt
  ∧ take 3 (stdout w.1) = [Header; CheckingElements; AllElementsValid].
Proof. by vm_compute. Qed.

(** C9 on the code.  In the store rebuilt from [cyrillic_csvs] a row of
    [FusionAll] has the Cyrillic letter U+0421 as its first symbol, and a
    row of [FissionAll] has the symbol [D*]; checks 6 and 7, which look in
    [FusionAll] for the two strings U+041D and U+041D U+0435 and for an
    asterisk, print that there are no Cyrillic characters and no
    asterisks. *)
Theorem hygiene_checks_miss_symbols :
  let store := rebuilt cyrillic_csvs in
  let w := run (verify_database (H := sample_engine)) (start ∅ store) in
  (store ≫= λ d, tables d !! "FusionAll" ≫= λ t, Some (select_column t "E1"))
  = Some [SText cyrillic_C]
  ∧ (store ≫= λ d, tables d !! "FissionAll" ≫= λ t, Some (select_column t "E2"))
    = Some [SText "D*"]
  ∧ w.2 = Ok tt
  ∧ drop 16 (stdout w.1)
    = [CheckingCyrillic; NoCyrillic; CheckingAsterisks; NoAsterisks; Complete].
Proof. by vm_compute. Qed.

End VerifyDbProps.

(** ** create_db.py *)

Module CreateDbProps.
Import Sqlite CreateDb SqliteProps InsertProps Examples.

Section engine.
Context `{Engine}.
Implicit Types w : world msg.


(** The rowid of the last row of a list of rows, if any. *)
Lemma last_snoc_rowid (news : list (list sqlval)) z cells :
  last (news ++ [SInt z :: cells]) ≫= rowid_of_row = Some z.
Proof. by rewrite last_snoc. Qed.



(** *** The numeric parse of the loaders *)




(** [int] of a float is its truncation toward zero. *)
Lemma py_int_truncates neg m e z :
  (0 ≤ m)%Z → PyFloat.py_int (PyFloat.Fin neg m e) = Ok z →
  (if neg then z ≤ 0 else 0 ≤ z)%Z
  ∧ (if decide (0 ≤ e)%Z then Z.abs z = m * 2 ^ e
     else Z.abs z * 2 ^ (- e) ≤ m < (Z.abs z + 1) * 2 ^ (- e))%Z.
Proof.
  intros Hm [= <-]. destruct (Z.leb_spec 0 e) as [He|He].
  - rewrite decide_True by done.
    assert (0 ≤ m * 2 ^ e)%Z by (apply Z.mul_nonneg_nonneg; lia).
    destruct neg; split; lia.
  - rewrite decide_False by lia.
    assert (0 < 2 ^ (- e))%Z by (apply Z.pow_pos_nonneg; lia).
    assert (0 ≤ m / 2 ^ (- e))%Z by (apply Z.div_pos; lia).
    pose proof (Z.mul_div_le m (2 ^ (- e)) ltac:(lia)).
    pose proof (Z.mul_succ_div_gt m (2 ^ (- e)) ltac:(lia)).
    destruct neg; split; nia.
Qed.

(** *** create_tables on a store that is there *)





(** *** populate_elements *)










End engine.





End CreateDbProps.

(** ** The loaders of both scripts *)

Module LoaderProps.
Import Sqlite SqliteProps InsertProps Examples.

Section engine.
Context `{Engine}.


End engine.



End LoaderProps.

(** ** extract_data.py and convert_excel_to_sql.py: the two-to-two sheet *)

Module TwoToTwoProps.
Import Pandas CanonicalizerProps.

Section cells.
Context {cell : Type}.


End cells.

Import Examples.


End TwoToTwoProps.

(** ** extract_data.py: a whole run, and a sheet too narrow *)

Module ExtractProps.
Import Pandas CanonicalizerProps Examples.

Section cells.
Context {cell : Type} (to_text : cell → string).
Implicit Types (df : frame cell) (w : ExtractData.world (cell := cell)).




End cells.



End ExtractProps.

(** ** parse_html_tables.py: the single-file tables *)

Module ReaderProps.
Import ParseHtmlTables ParseHtmlTablesProps.



End ReaderProps.

(** ** parse_html_tables.py: a page that is missing *)

Module ExportProps.
Import ParseHtmlTables ParseHtmlTablesProps.






End ExportProps.

(** ** rebuild_db.py: what import_csv reports *)

Module ImportProps.
Import Sqlite SqliteProps Examples RebuildDb RebuildDbProps.

Section engine.
Context `{Engine}.
Implicit Types w : world msg.


End engine.


End ImportProps.

(** ** rebuild_db.py: the store a run leaves *)

Module RebuildStoreProps.
Import Sqlite SqliteProps Examples RebuildDb RebuildDbProps.

Section engine.
Context `{Engine}.
Implicit Types w : world msg.








End engine.


End RebuildStoreProps.

(** ** create_db.py: what a loader accepts and reports *)

Module BootstrapProps.
Import Sqlite SqliteProps Examples CreateDb CreateDbProps.

Section engine.
Context `{Engine}.
Implicit Types w : world msg.


End engine.


End BootstrapProps.

(** ** Both loaders: a load that fails *)

Module TransactionProps.
Import Sqlite SqliteProps Examples.

Section world.
Context {msg : Type}.
Implicit Types w : world msg.





Lemma raise_db {A} e w : db (raise (A := A) e w).1 = db w.
Proof. done. Qed.




End world.

Section engine.
Context `{Engine}.


End engine.


End TransactionProps.

(** ** verify_db.py: the first check on FusionAll *)

Module VerifierProps.
Import Sqlite SqliteProps Examples VerifyDb VerifyDbProps.



End VerifierProps.
